(** * download_and_predict/base.py: tiles, imagery, payloads, predictions

    A shallow embedding of [DownloadAndPredict] (src/lambda/download_and_predict/base.py).

    - Python exceptions are a closed enumeration [Exn]; a computation that
      may raise returns [result].
    - Code that talks to the network runs in the monad [M]: it reads the
      outside world ([World]: servers and library functions) and appends
      every HTTP request it issues to a log.
    - Numbers decoded from JSON are rationals ([Q]); geographic coordinates,
      which involve [atan] and [sinh], are real numbers ([R]), the exact
      values that the Python floats approximate.
    - Python dictionaries are insertion-ordered association lists
      ([PyDict]). *)

From Stdlib Require Import ZArith QArith Qreals Reals Lra Lia.
From Stdlib Require Import List String Ascii Bool.
From Stdlib.Strings Require Import Byte.
From stdpp Require Import base list.

Import ListNotations.
Local Open Scope string_scope.
Local Open Scope list_scope.
Local Open Scope Z_scope.

(** ** Exceptions and results *)

Inductive Exn : Type :=
  | TypeError
  | KeyError
  | IndexError
  | AttributeError
  | ValueError
  | HTTPError
  | JSONDecodeError
  | RasterioIOError.

Inductive result (A : Type) : Type :=
  | Ok (a : A)
  | Raise (e : Exn).

Arguments Ok {A} a.
Arguments Raise {A} e.

#[global] Instance result_ret : MRet result := fun _ a => Ok a.

#[global] Instance result_bind : MBind result := fun _ _ f m =>
  match m with
  | Ok a => f a
  | Raise e => Raise e
  end.

Definition is_ok {A} (r : result A) : bool :=
  match r with Ok _ => true | Raise _ => false end.

(** A list comprehension [[f x for x in l]] whose body may raise: elements
    are evaluated left to right and the first exception ends it. *)
Fixpoint comprehension {A B} (f : A -> result B) (l : list A) : result (list B) :=
  match l with
  | [] => Ok []
  | x :: xs =>
      y ← f x;
      ys ← comprehension f xs;
      Ok (y :: ys)
  end.

(** [lst[i]] for a non-negative index. *)
Definition py_index {A} (l : list A) (i : nat) : result A :=
  match l !! i with
  | Some a => Ok a
  | None => Raise IndexError
  end.

(** [lst[:n]]: a negative stop counts from the end of the list. *)
Definition py_slice_to {A} (l : list A) (n : Z) : list A :=
  if 0 <=? n then take (Z.to_nat n) l
  else take (length l - Z.to_nat (- n)) l.

(** ** Python dictionaries *)

Module PyDict.

Definition t (V : Type) : Type := list (string * V).

Definition empty {V} : t V := [].

Fixpoint get {V} (d : t V) (k : string) : option V :=
  match d with
  | [] => None
  | (k', v) :: d' => if String.eqb k k' then Some v else get d' k
  end.

(** [d[k] = v]: an existing key keeps its position, a new key goes last. *)
Fixpoint set {V} (d : t V) (k : string) (v : V) : t V :=
  match d with
  | [] => [(k, v)]
  | (k', v') :: d' =>
      if String.eqb k k' then (k', v) :: d' else (k', v') :: set d' k v
  end.

Definition keys {V} (d : t V) : list string := map fst d.

Definition values {V} (d : t V) : list V := map snd d.

(** [dict(items)]: the items are stored one after the other. *)
Definition of_items {V} (items : list (string * V)) : t V :=
  fold_left (fun d kv => set d (fst kv) (snd kv)) items empty.

(** [d[k]] *)
Definition getitem {V} (d : t V) (k : string) : result V :=
  match get d k with
  | Some v => Ok v
  | None => Raise KeyError
  end.

End PyDict.

(** ** Tiles (mercantile) *)

(** [mercantile.Tile]: a named tuple with the fields [x], [y], [z]. *)
Record Tile : Type := mkTile { tile_x : Z; tile_y : Z; tile_z : Z }.

(** [Tile] applied to an unpacked argument list: the constructor takes
    exactly three positional arguments. *)
Definition Tile_new (args : list Z) : result Tile :=
  match args with
  | [x; y; z] => Ok (mkTile x y z)
  | _ => Raise TypeError
  end.

(** ** TileBatchExtractor: [get_tiles] *)

(** The body of a message is the text of a JSON object. It is kept as the
    sequence of its members in the order they are written; [json_loads]
    builds the dictionary that [json.loads] returns for it (a repeated name
    keeps its first position and its last value). The statements about
    [get_tiles] are about such bodies: a body that is not JSON, or not an
    object with integer values, is not a value of this type. *)
Definition Body : Type := list (string * Z).

Definition json_loads (body : Body) : PyDict.t Z := PyDict.of_items body.

(** [download_and_predict.custom_types.SQSEvent], as the docstring of
    [get_tiles] gives it: [{ 'Records': [ { "body": ... } ] }]. *)
Record SQSRecord : Type := { body : Body }.
Record SQSEvent : Type := { Records : list SQSRecord }.

Definition get_tiles (event : SQSEvent) : result (list Tile) :=
  comprehension
    (fun record => Tile_new (PyDict.values (json_loads (body record))))
    (Records event).

(** A message carries the integer fields x, y and z (and nothing else). *)
Definition carries (b : Body) (x y z : Z) : Prop :=
  PyDict.get (json_loads b) "x" = Some x /\
  PyDict.get (json_loads b) "y" = Some y /\
  PyDict.get (json_loads b) "z" = Some z /\
  length (json_loads b) = 3%nat.

(** The message format of the docstring: x, then y, then z. *)
Definition xyz_body (x y z : Z) : Body := [("x", x); ("y", y); ("z", z)].

Definition event_of (bodies : list Body) : SQSEvent :=
  {| Records := map (fun b => {| body := b |}) bodies |}.

(** ** JSON values, as [r.json()] returns them *)

#[warnings="-register-all"] Inductive json : Type :=
  | JNull
  | JBool (b : bool)
  | JNum (q : Q)
  | JStr (s : string)
  | JArr (l : list json)
  | JObj (d : PyDict.t json).

(** [obj[key]] for a string key: only a dictionary can be subscripted by a
    string. *)
Definition json_getitem (obj : json) (key : string) : result json :=
  match obj with
  | JObj d => PyDict.getitem d key
  | _ => Raise TypeError
  end.

(** [obj.get(key)]: only a dictionary has the method; a missing key gives
    [None]. *)
Definition json_get (obj : json) (key : string) : result json :=
  match obj with
  | JObj d => Ok (default JNull (PyDict.get d key))
  | _ => Raise AttributeError
  end.

(** [v is not None] *)
Definition is_not_None (v : json) : bool :=
  match v with JNull => false | _ => true end.

(** ** The outside world: HTTP servers and library functions *)

Definition bytes : Type := list byte.

Inductive InstanceKey : Type := key_image_bytes | key_inputs.

(** One element of ["instances"]: [{"image_bytes": {"b64": s}}] or
    [{"inputs": {"b64": s}}]. *)
Record Instance : Type := { inst_key : InstanceKey; inst_b64 : string }.

(** The request body [{"instances": [...]}]. *)
Record Payload : Type := { instances : list Instance }.

Inductive Request : Type :=
  | HttpGet (url : string)
  | HttpPost (url : string) (data : Payload).

Record Response (B : Type) : Type := { status_code : Z; resp_body : B }.
Arguments status_code {B} r.
Arguments resp_body {B} r.

(** [rasterio.windows.Window(col_off, row_off, width, height)] *)
Record Window : Type :=
  { col_off : Z; row_off : Z; win_width : Z; win_height : Z }.

(** An open rasterio dataset: [read(window=w)] returns the pixels of the
    window (kept as the buffer of the array). *)
Record Dataset : Type := { dataset_read : Window -> result bytes }.

(** What one element of ["predictions"] holds for a detection model. *)
Record Detections : Type :=
  { num_detections : Q;
    detection_scores : list Q;
    detection_boxes : list (list Q) }.

(** Everything the program reaches outside itself. A server sees the
    requests made so far, so two equal requests may get different answers.
    The body of a response is given in the form the caller reads it:
    [r.content] for imagery, [r.json()] for metadata, and
    [r.json()["predictions"]] for the two kinds of model. The statements
    about the two post-processors are about responses of the model server
    that have this form (a list of vectors of numbers for a classifier; for
    a detector a list of objects with a number [num_detections], a list of
    numbers [detection_scores] and a list of boxes of numbers
    [detection_boxes]): a predict response of another form is not a value
    of these types. *)
Record World : Type :=
  { str_format : string -> Tile -> result string;
    b64encode : bytes -> string;
    memfile_open : bytes -> result Dataset;
    imagery_server : list Request -> string -> Response bytes;
    metadata_server : list Request -> string -> Response (result json);
    classifier : list Request -> string -> Payload -> Response (list (list Q));
    detector : list Request -> string -> Payload -> Response (list Detections) }.

(** Computations that use the world and log their requests. The log is
    returned also when the computation raises. *)
Definition M (A : Type) : Type :=
  World -> list Request -> result A * list Request.

#[global] Instance M_ret : MRet M := fun _ a _ log => (Ok a, log).

#[global] Instance M_bind : MBind M := fun _ _ f m w log =>
  match m w log with
  | (Ok a, log') => f a w log'
  | (Raise e, log') => (Raise e, log')
  end.

Definition lift {A} (r : result A) : M A := fun _ log => (r, log).

Definition raise {A} (e : Exn) : M A := lift (Raise e).

(** A library function of the world, applied. *)
Definition call {A} (f : World -> result A) : M A := fun w log => (f w, log).

(** [requests.get(url)] and [requests.post(url, data=...)], one per kind of
    endpoint. *)
Definition get_imagery (url : string) : M (Response bytes) :=
  fun w log => (Ok (imagery_server w log url), log ++ [HttpGet url]).

Definition get_metadata (url : string) : M (Response (result json)) :=
  fun w log => (Ok (metadata_server w log url), log ++ [HttpGet url]).

Definition post_classifier (url : string) (data : Payload)
  : M (Response (list (list Q))) :=
  fun w log => (Ok (classifier w log url data), log ++ [HttpPost url data]).

Definition post_detector (url : string) (data : Payload)
  : M (Response (list Detections)) :=
  fun w log => (Ok (detector w log url data), log ++ [HttpPost url data]).

(** [Response.ok] of requests: the status is not a client or server error. *)
Definition ok {B} (r : Response B) : bool :=
  negb ((400 <=? status_code r) && (status_code r <? 600)).

(** [r.raise_for_status()] *)
Definition raise_for_status {B} (r : Response B) : M unit :=
  if ok r then mret tt else raise HTTPError.

(** A generator driven to its end: the yields of the body for each element,
    in order. *)
Fixpoint for_yield {A B} (f : A -> M (list B)) (l : list A) : M (list B) :=
  match l with
  | [] => mret []
  | x :: xs =>
      ys ← f x;
      rest ← for_yield f xs;
      mret (ys ++ rest)
  end.

(** ** The object *)

Inductive ModelType : Type := OBJECT_DETECT | CLASSIFICATION.

Record DownloadAndPredict : Type :=
  { imagery : string;
    mlenabler_endpoint : string;
    prediction_endpoint : string;
    meta : json }.

(** [__init__] *)
Definition init (imagery mlenabler_endpoint prediction_endpoint : string)
  : DownloadAndPredict :=
  {| imagery := imagery;
     mlenabler_endpoint := mlenabler_endpoint;
     prediction_endpoint := prediction_endpoint;
     meta := JObj PyDict.empty |}.

Definition set_meta (self : DownloadAndPredict) (m : json) : DownloadAndPredict :=
  {| imagery := imagery self;
     mlenabler_endpoint := mlenabler_endpoint self;
     prediction_endpoint := prediction_endpoint self;
     meta := m |}.

(** ** ModelTypeDetector: [get_meta] *)

(** The part of [get_meta] after [r.json()]: the signature's input map is
    looked up in the stored metadata. *)
Definition serving_inputs (m : json) : result json :=
  a ← json_getitem m "metadata";
  b ← json_getitem a "signature_def";
  c ← json_getitem b "signature_def";
  d ← json_getitem c "serving_default";
  json_getitem d "inputs".

Definition model_type_of_inputs (inputs : json) : result ModelType :=
  v ← json_get inputs "inputs";
  if is_not_None v then Ok OBJECT_DETECT else Ok CLASSIFICATION.

(** [get_meta] returns the model type together with the object, whose
    [meta] attribute it assigns. *)
Definition get_meta (self : DownloadAndPredict) : M (ModelType * DownloadAndPredict) :=
  r ← get_metadata (prediction_endpoint self ++ "/metadata")%string;
  _ ← raise_for_status r;
  m ← lift (resp_body r);
  let self := set_meta self m in
  inputs ← lift (serving_inputs (meta self));
  t ← lift (model_type_of_inputs inputs);
  mret (t, self).

(** ** mercantile: children, ordering of tiles, quadkeys *)

(** [mercantile.children(tile, zoom=tile.z + 1)]: with the target zoom one
    level down, the loop of [children] subdivides the tile once and returns
    its four children in this order. *)
Definition children (tile : Tile) : list Tile :=
  let x := tile_x tile in let y := tile_y tile in let z := tile_z tile in
  [ mkTile (x * 2) (y * 2) (z + 1);
    mkTile (x * 2 + 1) (y * 2) (z + 1);
    mkTile (x * 2 + 1) (y * 2 + 1) (z + 1);
    mkTile (x * 2) (y * 2 + 1) (z + 1) ].

(** Tiles are tuples, compared field by field: [a <= b]. *)
Definition tile_leb (a b : Tile) : bool :=
  if tile_x a <? tile_x b then true
  else if tile_x b <? tile_x a then false
  else if tile_y a <? tile_y b then true
  else if tile_y b <? tile_y a then false
  else tile_z a <=? tile_z b.

Fixpoint insert_sorted (t : Tile) (l : list Tile) : list Tile :=
  match l with
  | [] => [t]
  | u :: l' => if tile_leb t u then t :: l else u :: insert_sorted t l'
  end.

(** [list.sort()] on a list of tiles: ascending and stable. *)
Definition sort (l : list Tile) : list Tile := foldr insert_sorted [] l.

(** The tile of the next zoom level that lies in column [i] and row [j] of
    the parent: the child that the window at pixel offset
    [(256 * i, 256 * j)] of the parent raster shows. *)
Definition child_at (tile : Tile) (i j : Z) : Tile :=
  mkTile (tile_x tile * 2 + i) (tile_y tile * 2 + j) (tile_z tile + 1).

Definition digit_char (d : Z) : string :=
  if d =? 0 then "0" else if d =? 1 then "1" else if d =? 2 then "2" else "3".

(** The loop of [mercantile.quadkey], [for z in range(zoom, 0, -1)], with
    [n] levels left to write. *)
Fixpoint quadkey_from (xtile ytile : Z) (n : nat) : string :=
  match n with
  | O => ""
  | S n' =>
      let mask := Z.shiftl 1 (Z.of_nat n') in
      let digit := 0 in
      let digit := if Z.land xtile mask =? 0 then digit else digit + 1 in
      let digit := if Z.land ytile mask =? 0 then digit else digit + 2 in
      (digit_char digit ++ quadkey_from xtile ytile n')%string
  end.

Definition quadkey (xtile ytile zoom : Z) : string :=
  quadkey_from xtile ytile (Z.to_nat zoom).

(** ** ImageryFetcher: [get_images], [get_supertiles_images] *)

(** The values that reach the parameters of the two fetchers. *)
Inductive pyval : Type :=
  | VObject (self : DownloadAndPredict)
  | VTiles (tiles : list Tile).

(** [for tile in tiles]: the argument must be iterable. *)
Definition iter_tiles (tiles : pyval) : M (list Tile) :=
  match tiles with
  | VTiles ts => mret ts
  | VObject _ => raise TypeError
  end.

(** [self.imagery]: the argument must have the attribute. *)
Definition attr_imagery (self : pyval) : M string :=
  match self with
  | VObject o => mret (imagery o)
  | VTiles _ => raise AttributeError
  end.

(** The body of [get_images], with its two parameters bound. *)
Definition get_images_body (self tiles : pyval) : M (list (Tile * bytes)) :=
  ts ← iter_tiles tiles;
  for_yield (fun tile =>
    template ← attr_imagery self;
    url ← call (fun w => str_format w template tile);
    r ← get_imagery url;
    mret [(tile, resp_body r)]) ts.

(** [def get_images(self, tiles)]: a call binds exactly two positional
    arguments, and fails before the body runs with any other number. *)
Definition get_images (args : list pyval) : M (list (Tile * bytes)) :=
  match args with
  | [self; tiles] => get_images_body self tiles
  | _ => raise TypeError
  end.

(** [Window(i * 256, j * 256, 256, 256)] *)
Definition quadrant_window (i j : Z) : Window :=
  {| col_off := i * 256; row_off := j * 256; win_width := 256; win_height := 256 |}.

(** The two nested [range(2)] loops, in the order they run. *)
Definition quadrant_indices : list (Z * Z) := [(0, 0); (0, 1); (1, 0); (1, 1)].

Definition get_supertiles_images_body (self tiles : pyval)
  : M (list (Tile * bytes)) :=
  ts ← iter_tiles tiles;
  for_yield (fun tile =>
    template ← attr_imagery self;
    url ← call (fun w => str_format w template tile);
    r ← get_imagery url;
    dataset ← call (fun w => memfile_open w (resp_body r));
    let tile_indices := children tile in
    let tile_indices := sort tile_indices in
    lift (comprehension (fun '(i, j) =>
      let window := quadrant_window i j in
      t ← py_index tile_indices (Z.to_nat (i + j));
      img ← dataset_read dataset window;
      Ok (t, img)) quadrant_indices)) ts.

Definition get_supertiles_images (args : list pyval) : M (list (Tile * bytes)) :=
  match args with
  | [self; tiles] => get_supertiles_images_body self tiles
  | _ => raise TypeError
  end.

(** ** PayloadBuilder *)

(** [self.f(args)] where [f] is declared with [@staticmethod]: the function
    gets the arguments of the call and nothing else. *)
Definition call_staticmethod {A} (f : list pyval -> M A)
  (self : DownloadAndPredict) (args : list pyval) : M A :=
  f args.

(** [self.f(args)] where [f] is a plain method: the object comes first. *)
Definition call_method {A} (f : list pyval -> M A)
  (self : DownloadAndPredict) (args : list pyval) : M A :=
  f (VObject self :: args).

Definition b64encode_image (image_binary : bytes) : M string :=
  call (fun w => Ok (b64encode w image_binary)).

(** [tile_indices, images = zip( *tiles_and_images )]: with no pair there
    is nothing to unpack. *)
Definition unzip_pairs (l : list (Tile * bytes)) : M (list Tile * list bytes) :=
  match l with
  | [] => raise ValueError
  | _ => mret (map fst l, map snd l)
  end.

Fixpoint encode_all (k : InstanceKey) (images : list bytes) : M (list Instance) :=
  match images with
  | [] => mret []
  | img :: rest =>
      s ← b64encode_image img;
      others ← encode_all k rest;
      mret ({| inst_key := k; inst_b64 := s |} :: others)
  end.

(** What follows the fetch in both payload builders. *)
Definition build_payload (tiles_and_images : list (Tile * bytes))
  (model_type : ModelType) : M (list Tile * Payload) :=
  '(tile_indices, images) ← unzip_pairs tiles_and_images;
  instances ← match model_type with
              | CLASSIFICATION => encode_all key_image_bytes images
              | OBJECT_DETECT => encode_all key_inputs images
              end;
  let payload := {| instances := instances |} in
  mret (tile_indices, payload).

Definition get_prediction_payload (self : DownloadAndPredict)
  (tiles : list Tile) (model_type : ModelType) : M (list Tile * Payload) :=
  tiles_and_images ← call_staticmethod get_images self [VTiles tiles];
  build_payload tiles_and_images model_type.

Definition get_prediction_payload_supertiles (self : DownloadAndPredict)
  (tiles : list Tile) (model_type : ModelType) : M (list Tile * Payload) :=
  tiles_and_images ← call_staticmethod get_supertiles_images self [VTiles tiles];
  build_payload tiles_and_images model_type.

(** ** GeoTransformer: [tf_bbox_geo] *)

Module Geo.

Local Open Scope R_scope.

(** [mercantile.LngLatBbox] *)
Record LngLatBbox : Type := { west : R; south : R; east : R; north : R }.

(** [math.degrees] *)
Definition degrees (x : R) : R := x * (180 / PI).

(** [mercantile.bounds(xtile, ytile, zoom)] *)
Definition bounds (xtile ytile zoom : Z) : LngLatBbox :=
  let Z2 := powerRZ 2 zoom in
  let ul_lon_deg := IZR xtile / Z2 * 360 - 180 in
  let ul_lat_rad := atan (sinh (PI * (1 - 2 * IZR ytile / Z2))) in
  let ul_lat_deg := degrees ul_lat_rad in
  let lr_lon_deg := IZR (xtile + 1) / Z2 * 360 - 180 in
  let lr_lat_rad := atan (sinh (PI * (1 - 2 * IZR (ytile + 1) / Z2))) in
  let lr_lat_deg := degrees lr_lat_rad in
  {| west := ul_lon_deg; south := lr_lat_deg;
     east := lr_lon_deg; north := ul_lat_deg |}.

(** [affine.Affine(a, b, c, d, e, f)]: [xoff] is [c] and [yoff] is [f]. *)
Record Affine : Type :=
  { af_a : R; af_b : R; af_c : R; af_d : R; af_e : R; af_f : R }.

Definition xoff (a : Affine) : R := af_c a.
Definition yoff (a : Affine) : R := af_f a.

(** The exterior ring of a polygon, closed: the last point repeats the
    first. *)
Definition Ring (C : Type) : Type := list (C * C).

(** [shapely.geometry.box(minx, miny, maxx, maxy)], counter-clockwise. *)
Definition box (minx miny maxx maxy : Q) : Ring Q :=
  [ (maxx, miny); (maxx, maxy); (minx, maxy); (minx, miny); (maxx, miny) ].

(** [shapely.affinity.affine_transform(geom, [a, b, d, e, xoff, yoff])].
    The pixel coordinates are rationals; they enter the real-valued
    geographic frame here. *)
Definition affine_transform (geom : Ring Q) (matrix : list R) : result (Ring R) :=
  match matrix with
  | [a; b; d; e; xoff; yoff] =>
      Ok (map (fun '(x, y) =>
                 (a * Q2R x + b * Q2R y + xoff, d * Q2R x + e * Q2R y + yoff))
              geom)
  | _ => Raise ValueError
  end.

(** [pred = [bbox[1], bbox[0], bbox[3], bbox[2]]], the first line of
    [tf_bbox_geo]. *)
Definition reorder (bbox : list Q) : result (list Q) :=
  b1 ← py_index bbox 1;
  b0 ← py_index bbox 0;
  b3 ← py_index bbox 3;
  b2 ← py_index bbox 2;
  Ok [b1; b0; b3; b2].

(** [geometry.box( *pred )] *)
Definition box_of (pred : list Q) : result (Ring Q) :=
  match pred with
  | [minx; miny; maxx; maxy] => Ok (box minx miny maxx maxy)
  | _ => Raise TypeError
  end.

(** The lines of [tf_bbox_geo] that build the transform of the tile:
    [a_lst = [a.a, a.b, a.d, a.e, a.xoff, a.yoff]]. *)
Definition tile_affine (tile : Tile) : list R :=
  let b := bounds (tile_x tile) (tile_y tile) (tile_z tile) in
  let width := east b - west b in
  let height := north b - south b in
  let a := {| af_a := width / 256; af_b := 0; af_c := west b;
              af_d := 0; af_e := 0 - height / 256; af_f := north b |} in
  [af_a a; af_b a; af_d a; af_e a; xoff a; yoff a].

Definition tf_bbox_geo (bbox : list Q) (tile : Tile) : result (Ring R) :=
  pred ← reorder bbox;
  let a_lst := tile_affine tile in
  pixel_box ← box_of pred;
  affine_transform pixel_box a_lst.

(** [polygon.bounds]: (minx, miny, maxx, maxy) over the points of the
    ring. *)
Definition ring_bounds (p : Ring R) : option (R * R * R * R) :=
  match p with
  | [] => None
  | (x, y) :: rest =>
      Some (foldr (fun q m => Rmin (fst q) m) x rest,
            foldr (fun q m => Rmin (snd q) m) y rest,
            foldr (fun q m => Rmax (fst q) m) x rest,
            foldr (fun q m => Rmax (snd q) m) y rest)
  end.

(** The bounds of a tile as the tuple (west, south, east, north). *)
Definition bounds_tuple (tile : Tile) : R * R * R * R :=
  let b := bounds (tile_x tile) (tile_y tile) (tile_z tile) in
  (west b, south b, east b, north b).

End Geo.

(** ** geojson: the geometry of a feature *)

(** The integer nearest to [x], a tie going to the even one. *)
Definition round_half_even (x : R) : Z :=
  let f := Int_part x in
  let d := (x - IZR f)%R in
  if Rlt_dec d (1 / 2) then f
  else if Rlt_dec (1 / 2) d then f + 1
  else if Z.even f then f else f + 1.

(** [round(x, ndigits)] for a float. *)
Definition py_round (x : R) (ndigits : nat) : R :=
  (IZR (round_half_even (x * 10 ^ ndigits)) / 10 ^ ndigits)%R.

(** [geojson.Feature(geometry=g, properties={}).geometry] for a polygon
    [g]: the polygon is turned into a geojson geometry, whose constructor
    rounds every coordinate to its default precision of 6 decimals. *)
Definition feature_geometry (g : Geo.Ring R) : Geo.Ring R :=
  map (fun p => (py_round (fst p) 6, py_round (snd p) 6)) g.

(** ** PredictionPostProcessor *)

Record PredictionRecord : Type :=
  { rec_quadkey : string;
    rec_quadkey_geom : option (Geo.Ring R);
    rec_predictions : PyDict.t Q;
    rec_prediction_id : string }.

(** [{"predictionId": ..., "predictions": [...]}] *)
Record ResultDoc : Type :=
  { predictionId : string; doc_predictions : list PredictionRecord }.

(** *** Classification: [cl_post_prediction] *)

(** [for j in range(len(preds[i])): pred_dict[inferences[j]] = preds[i][j]],
    from index [j] on, [vec] being what is left of [preds[i]]. *)
Fixpoint fill_pred_dict (inferences : list string) (j : nat) (vec : list Q)
  (pred_dict : PyDict.t Q) : result (PyDict.t Q) :=
  match vec with
  | [] => Ok pred_dict
  | score :: vec' =>
      label ← py_index inferences j;
      fill_pred_dict inferences (S j) vec' (PyDict.set pred_dict label score)
  end.

(** [for i in range(len(tiles))], from index [i] on, [tiles] being what is
    left of the list. *)
Fixpoint cl_loop (preds : list (list Q)) (prediction_id : string)
  (inferences : list string) (i : nat) (tiles : list Tile)
  (pred_list : list PredictionRecord) : result (list PredictionRecord) :=
  match tiles with
  | [] => Ok pred_list
  | tile :: tiles' =>
      vec ← py_index preds i;
      pred_dict ← fill_pred_dict inferences 0 vec PyDict.empty;
      cl_loop preds prediction_id inferences (S i) tiles'
        (pred_list ++
         [{| rec_quadkey := quadkey (tile_x tile) (tile_y tile) (tile_z tile);
             rec_quadkey_geom := None;
             rec_predictions := pred_dict;
             rec_prediction_id := prediction_id |}])
  end.

Definition cl_post_prediction (self : DownloadAndPredict) (payload : Payload)
  (tiles : list Tile) (prediction_id : string) (inferences : list string)
  : M ResultDoc :=
  r ← post_classifier (prediction_endpoint self ++ ":predict")%string payload;
  _ ← raise_for_status r;
  let preds := resp_body r in
  pred_list ← lift (cl_loop preds prediction_id inferences 0 tiles []);
  mret {| predictionId := prediction_id; doc_predictions := pred_list |}.

(** *** Detection: [od_post_prediction] *)

(** [int(x)] for a float: truncation towards zero. *)
Definition py_int (x : Q) : Z := Z.quot (Qnum x) (Zpos (Qden x)).

(** [[c * 256 for c in bbox]] for every box. *)
Definition scale_256 (bboxes : list (list Q)) : list (list Q) :=
  map (map (fun c => (c * 256)%Q)) bboxes.

(** [for j in range(len(bboxes_256))]: one record per box. *)
Definition od_records (preds : Detections) (bboxes_256 : list (list Q))
  (tile : Tile) (prediction_id : string) : result (list PredictionRecord) :=
  comprehension (fun j =>
    bbox_256 ← py_index bboxes_256 j;
    geometry ← Geo.tf_bbox_geo bbox_256 tile;
    let bbox := feature_geometry geometry in
    score ← py_index (detection_scores preds) j;
    Ok {| rec_quadkey := quadkey (tile_x tile) (tile_y tile) (tile_z tile);
          rec_quadkey_geom := Some bbox;
          rec_predictions := [("default", score)];
          rec_prediction_id := prediction_id |})
    (seq 0 (length bboxes_256)).

(** The body of the loop over the tiles after the response has been read:
    the records appended to [pred_list] for this tile. *)
Definition od_tile (preds : Detections) (tile : Tile) (prediction_id : string)
  : result (list PredictionRecord) :=
  if Qeq_bool (num_detections preds) 0 then Ok []
  else
    let scores := py_slice_to (detection_scores preds) (py_int (num_detections preds)) in
    let bboxes := py_slice_to (detection_boxes preds) (py_int (num_detections preds)) in
    let bboxes_256 := scale_256 bboxes in
    od_records preds bboxes_256 tile prediction_id.

Fixpoint od_loop (self : DownloadAndPredict) (payload : Payload)
  (prediction_id : string) (i : nat) (tiles : list Tile)
  (pred_list : list PredictionRecord) : M (list PredictionRecord) :=
  match tiles with
  | [] => mret pred_list
  | tile :: tiles' =>
      instance ← lift (py_index (instances payload) i);
      r ← post_detector (prediction_endpoint self ++ ":predict")%string
            {| instances := [instance] |};
      _ ← raise_for_status r;
      preds ← lift (py_index (resp_body r) 0);
      records ← lift (od_tile preds tile prediction_id);
      od_loop self payload prediction_id (S i) tiles' (pred_list ++ records)
  end.

Definition od_post_prediction (self : DownloadAndPredict) (payload : Payload)
  (tiles : list Tile) (prediction_id : string) : M ResultDoc :=
  pred_list ← od_loop self payload prediction_id 0 tiles [];
  mret {| predictionId := prediction_id; doc_predictions := pred_list |}.

(** ** Vocabulary of the statements *)

(** The record of the classification variant for a tile and its prediction
    vector: the quadkey of the tile, the labels zipped with the vector, no
    geometry. *)
Definition cl_record (inferences : list string) (prediction_id : string)
  (tile : Tile) (vec : list Q) : PredictionRecord :=
  {| rec_quadkey := quadkey (tile_x tile) (tile_y tile) (tile_z tile);
     rec_quadkey_geom := None;
     rec_predictions := PyDict.of_items (zip inferences vec);
     rec_prediction_id := prediction_id |}.

(** A response of the classifier that is aligned with the batch: one vector
    per tile, none longer than the list of labels. *)
Definition well_aligned (preds : list (list Q)) (tiles : list Tile)
  (inferences : list string) : Prop :=
  length preds = length tiles /\
  Forall (fun vec => (length vec <= length inferences)%nat) preds.

(** The order of the specification for one detection box: reorder to
    [xmin, ymin, xmax, ymax], then scale by 256. *)
Definition spec_reorder_then_scale (bbox : list Q) : result (list Q) :=
  pred ← Geo.reorder bbox;
  Ok (map (fun c => (c * 256)%Q) pred).

(** ** Worlds and objects used in the examples *)

(** The model type a run of [get_meta] returned, if it returned. *)
Definition returned_type (out : result (ModelType * DownloadAndPredict) * list Request)
  : option ModelType :=
  match fst out with
  | Ok (t, _) => Some t
  | Raise _ => None
  end.

Definition no_dataset : Dataset := {| dataset_read := fun _ => Ok [] |}.

(** A world whose servers answer every request with the same response. *)
Definition constant_world (img : Response bytes) (md : Response (result json))
  (cl : Response (list (list Q))) (od : Response (list Detections)) : World :=
  {| str_format := fun template _ => Ok template;
     b64encode := fun _ => "";
     memfile_open := fun _ => Ok no_dataset;
     imagery_server := fun _ _ => img;
     metadata_server := fun _ _ => md;
     classifier := fun _ _ _ => cl;
     detector := fun _ _ _ => od |}.

Definition respond {B} (status : Z) (b : B) : Response B :=
  {| status_code := status; resp_body := b |}.

(** Metadata whose signature has the given input map. *)
Definition metadata_with_inputs (inputs : json) : json :=
  JObj [("metadata",
    JObj [("signature_def",
      JObj [("signature_def",
        JObj [("serving_default",
          JObj [("inputs", inputs)])])])])].

Definition metadata_world (status : Z) (m : json) : World :=
  constant_world (respond 200 []) (respond status (Ok m))
    (respond 200 []) (respond 200 []).

Definition example_object : DownloadAndPredict :=
  init "https://tiles.example/{z}/{x}/{y}.png" "https://store.example"
       "https://serving.example/v1/models/default".

(** ** Vocabulary of the further properties *)

(** The pixel at column [col] and row [row] lies in the window. *)
Definition in_window (win : Window) (col row : Z) : Prop :=
  col_off win <= col < col_off win + win_width win /\
  row_off win <= row < row_off win + win_height win.

(** The tiles that [get_supertiles_images] pairs with the four windows of a
    tile, in the order of the windows. *)
Definition supertile_tiles (tile : Tile) : list Tile :=
  [child_at tile 0 0; child_at tile 0 1; child_at tile 0 1; child_at tile 1 0].

(** The wrapper key of an instance for a model type. *)
Definition key_of (model_type : ModelType) : InstanceKey :=
  match model_type with
  | CLASSIFICATION => key_image_bytes
  | OBJECT_DETECT => key_inputs
  end.

(** The request that [od_post_prediction] sends for one instance. *)
Definition od_request (self : DownloadAndPredict) (instance : Instance) : Request :=
  HttpPost (prediction_endpoint self ++ ":predict")%string
           {| instances := [instance] |}.

(** The request log of [od_post_prediction] when it has sent the first [i]
    instances of the payload, starting from the log [log]. *)
Definition od_log (self : DownloadAndPredict) (payload : Payload)
  (log : list Request) (i : nat) : list Request :=
  log ++ map (od_request self) (take i (instances payload)).

(** The longitude of a pixel column and the latitude of a pixel row of a
    tile with the bounds [b], the raster being 256 pixels wide and high. *)
Definition lon_of_col (b : Geo.LngLatBbox) (col : Q) : R :=
  (Geo.west b + Q2R col * ((Geo.east b - Geo.west b) / 256))%R.

Definition lat_of_row (b : Geo.LngLatBbox) (row : Q) : R :=
  (Geo.north b - Q2R row * ((Geo.north b - Geo.south b) / 256))%R.

(** * Properties *)

(** Unfolds the operations of the two monads. *)
Ltac run_M :=
  repeat progress
    (unfold mbind, mret, M_bind, M_ret, result_bind, result_ret, lift, raise, call;
     cbn).

(** Takes hypotheses apart, then closes the goal by congruence or by the
    hypotheses at hand. *)
Ltac by_cases :=
  repeat split; intros;
  repeat match goal with
    | H : _ /\ _ |- _ => destruct H
    | H : ex _ |- _ => destruct H
    | H : _ \/ _ |- _ => destruct H
    | H : Ok _ = Ok _ |- _ => injection H as H
    | H : Some _ = Some _ |- _ => injection H as H
    end;
  subst;
  repeat match goal with
    | E : ?x = Ok _, H : context [?x] |- _ => rewrite E in H
    end;
  try (simpl in *; congruence);
  repeat (eexists || split); eauto; congruence.

(** ** TileBatchExtractor *)

Lemma carries_xyz_body (x y z : Z) : carries (xyz_body x y z) x y z.
Proof. repeat split. Qed.

(** C5, counterexample: a message that carries x = 4, y = 5, z = 3 with the
    members written in the order z, x, y yields the tile (3, 4, 5). *)
Lemma get_tiles_field_order_counterexample :
  carries [("z", 3); ("x", 4); ("y", 5)] 4 5 3 /\
  get_tiles (event_of [[("z", 3); ("x", 4); ("y", 5)]]) = Ok [mkTile 3 4 5] /\
  mkTile 3 4 5 <> mkTile 4 5 3.
Proof. repeat split; discriminate. Qed.

(** C5 (amended): for every ordered batch of messages whose bodies list the
    fields in the order x, y, z, [get_tiles] returns the tiles
    [(x_i, y_i, z_i)], one per message and in the order of the messages. *)
Theorem get_tiles_xyz_order (msgs : list (Z * Z * Z)) :
  get_tiles (event_of (map (fun '(x, y, z) => xyz_body x y z) msgs))
  = Ok (map (fun '(x, y, z) => mkTile x y z) msgs).
Proof.
  unfold get_tiles, event_of; simpl.
  induction msgs as [|[[x y] z] msgs IH]; simpl; [reflexivity|].
  rewrite IH. reflexivity.
Qed.

(** ** PayloadBuilder *)

(** Had the fetchers been plain methods, the call would have run their
    body. *)
Lemma call_method_get_images (self : DownloadAndPredict) (tiles : list Tile) :
  call_method get_images self [VTiles tiles]
  = get_images_body (VObject self) (VTiles tiles).
Proof. reflexivity. Qed.

(** C2: for every object, tile list, model type and world, both payload
    builders raise [TypeError] and leave the request log as it was: the
    static fetchers receive one argument for their two parameters. *)
Theorem payload_builders_raise_TypeError (w : World) (self : DownloadAndPredict)
  (tiles : list Tile) (model_type : ModelType) (log : list Request) :
  get_prediction_payload self tiles model_type w log = (Raise TypeError, log) /\
  get_prediction_payload_supertiles self tiles model_type w log
  = (Raise TypeError, log).
Proof. split; reflexivity. Qed.

(** ** ModelTypeDetector *)

Lemma get_meta_run (w : World) (self : DownloadAndPredict) (log : list Request) :
  let url := (prediction_endpoint self ++ "/metadata")%string in
  let r := metadata_server w log url in
  get_meta self w log =
  ((if ok r then
      m ← resp_body r;
      inputs ← serving_inputs m;
      t ← model_type_of_inputs inputs;
      Ok (t, set_meta self m)
    else Raise HTTPError),
   log ++ [HttpGet url]).
Proof.
  cbv zeta. unfold get_meta, get_metadata, raise_for_status. run_M.
  destruct (ok _); cbn; [|reflexivity].
  destruct (resp_body _) as [m|e]; cbn; [|reflexivity].
  destruct (serving_inputs m) as [i|e]; cbn; [|reflexivity].
  destruct (model_type_of_inputs i) as [t|e]; reflexivity.
Qed.

Lemma model_type_of_inputs_dict (d : PyDict.t json) :
  model_type_of_inputs (JObj d) =
  match PyDict.get d "inputs" with
  | Some v => if is_not_None v then Ok OBJECT_DETECT else Ok CLASSIFICATION
  | None => Ok CLASSIFICATION
  end.
Proof.
  unfold model_type_of_inputs; cbn.
  destruct (PyDict.get d "inputs") as [v|]; reflexivity.
Qed.

Lemma returned_type_get_meta (w : World) (self : DownloadAndPredict)
  (log : list Request) :
  let r := metadata_server w log (prediction_endpoint self ++ "/metadata")%string in
  returned_type (get_meta self w log) =
  if ok r then
    match resp_body r with
    | Ok m =>
        match serving_inputs m with
        | Ok (JObj d) =>
            match PyDict.get d "inputs" with
            | Some v => if is_not_None v then Some OBJECT_DETECT
                        else Some CLASSIFICATION
            | None => Some CLASSIFICATION
            end
        | _ => None
        end
    | Raise _ => None
    end
  else None.
Proof.
  cbv zeta. rewrite get_meta_run. unfold returned_type. cbn [fst].
  destruct (ok _); [|reflexivity].
  destruct (resp_body _) as [m|e]; [|reflexivity]. run_M.
  destruct (serving_inputs m) as [i|e]; [|reflexivity].
  destruct i as [| | | | |d]; try reflexivity.
  rewrite model_type_of_inputs_dict.
  destruct (PyDict.get d "inputs") as [v|]; [|reflexivity].
  destruct (is_not_None v); reflexivity.
Qed.

Lemma is_not_None_false (v : json) : is_not_None v = false <-> v = JNull.
Proof. destruct v; cbn; split; congruence. Qed.

(** C6, counterexample: the input map has an entry named [inputs] whose
    value is [null]; the metadata request succeeds and [get_meta] returns
    [CLASSIFICATION]. *)
Lemma get_meta_null_entry_counterexample :
  let m := metadata_with_inputs (JObj [("inputs", JNull)]) in
  (exists d v, serving_inputs m = Ok (JObj d) /\ PyDict.get d "inputs" = Some v) /\
  returned_type (get_meta example_object (metadata_world 200 m) [])
  = Some CLASSIFICATION.
Proof.
  split; [|reflexivity].
  exists [("inputs", JNull)], JNull. split; reflexivity.
Qed.

(** C6 (amended): [get_meta] returns [OBJECT_DETECT] exactly when the
    metadata request succeeds and the input map of [serving_default] has an
    entry named [inputs] whose value is not null; it returns
    [CLASSIFICATION] exactly when the request succeeds and the map has no
    such entry or a null one; and it returns no model type when the status
    is an error status or the signature fields are absent. *)
Theorem get_meta_model_type (w : World) (self : DownloadAndPredict)
  (log : list Request) :
  let r := metadata_server w log (prediction_endpoint self ++ "/metadata")%string in
  let out := returned_type (get_meta self w log) in
  (out = Some OBJECT_DETECT <->
     ok r = true /\
     exists m d v, resp_body r = Ok m /\ serving_inputs m = Ok (JObj d) /\
                   PyDict.get d "inputs" = Some v /\ v <> JNull) /\
  (out = Some CLASSIFICATION <->
     ok r = true /\
     exists m d, resp_body r = Ok m /\ serving_inputs m = Ok (JObj d) /\
                 (PyDict.get d "inputs" = None \/
                  PyDict.get d "inputs" = Some JNull)) /\
  (ok r = false \/
   (exists m, resp_body r = Ok m /\ is_ok (serving_inputs m) = false) ->
   out = None).
Proof.
  cbv zeta. rewrite returned_type_get_meta.
  destruct (ok _) eqn:Hok; [|by_cases].
  destruct (resp_body _) as [m|e] eqn:Hm; [|by_cases].
  destruct (serving_inputs m) as [i|e] eqn:Hi; [|by_cases].
  destruct i as [| | | | |d]; try by_cases.
  destruct (PyDict.get d "inputs") as [v|] eqn:Hv; [|by_cases].
  destruct (is_not_None v) eqn:Hn.
  - assert (v <> JNull) by (intros ->; discriminate). by_cases.
  - apply is_not_None_false in Hn. by_cases.
Qed.

(** C6, the amended statement at work: an input map with a non-null entry
    named [inputs] gives [OBJECT_DETECT]. *)
Lemma get_meta_model_type_witness :
  returned_type
    (get_meta example_object
       (metadata_world 200 (metadata_with_inputs (JObj [("inputs", JObj [])]))) [])
  = Some OBJECT_DETECT.
Proof.
  apply (proj1 (get_meta_model_type
           (metadata_world 200 (metadata_with_inputs (JObj [("inputs", JObj [])])))
           example_object [])).
  split; [reflexivity|].
  exists (metadata_with_inputs (JObj [("inputs", JObj [])])),
         [("inputs", JObj [])], (JObj []).
  repeat split. discriminate.
Defined.

(** ** ImageryFetcher *)

Lemma sort_children (tile : Tile) :
  sort (children tile)
  = [child_at tile 0 0; child_at tile 0 1; child_at tile 1 0; child_at tile 1 1].
Proof.
  destruct tile as [x y z]. unfold sort, children, child_at. cbn.
  repeat first
    [ progress (unfold tile_leb; cbn [tile_x tile_y tile_z])
    | match goal with
      | |- context [?a <? ?b] => destruct (Z.ltb_spec a b); try lia
      | |- context [?a <=? ?b] => destruct (Z.leb_spec a b); try lia
      end
    | progress cbn ].
  rewrite !Z.add_0_r. reflexivity.
Qed.

Lemma get_images_run (w : World) (self : DownloadAndPredict) (tile : Tile)
  (tiles : list Tile) (log : list Request) (url : string) :
  str_format w (imagery self) tile = Ok url ->
  get_images [VObject self; VTiles (tile :: tiles)] w log =
  match get_images [VObject self; VTiles tiles] w (log ++ [HttpGet url]) with
  | (Ok rest, log') => (Ok ((tile, resp_body (imagery_server w log url)) :: rest), log')
  | (Raise e, log') => (Raise e, log')
  end.
Proof.
  intros Hurl. unfold get_images, get_images_body, get_imagery. run_M.
  rewrite Hurl.
  destruct (for_yield _ tiles w (log ++ [HttpGet url])) as [[rest|e] log'];
    reflexivity.
Qed.




(** C1: what [get_supertiles_images] pairs with the four windows of one
    tile. The windows at pixel offsets (0,0), (0,256), (256,0), (256,256)
    get the children at (column, row) = (0,0), (0,1), (0,1), (1,0): the
    window at (256,0) is paired with the child of column 0 and row 1, not
    with the child it shows, and the child of column 1 and row 1 is not
    emitted. *)
Theorem get_supertiles_images_pairing (w : World) (self : DownloadAndPredict)
  (tile : Tile) (log : list Request) (url : string) (ds : Dataset)
  (i0 i1 i2 i3 : bytes) :
  str_format w (imagery self) tile = Ok url ->
  memfile_open w (resp_body (imagery_server w log url)) = Ok ds ->
  dataset_read ds (quadrant_window 0 0) = Ok i0 ->
  dataset_read ds (quadrant_window 0 1) = Ok i1 ->
  dataset_read ds (quadrant_window 1 0) = Ok i2 ->
  dataset_read ds (quadrant_window 1 1) = Ok i3 ->
  get_supertiles_images [VObject self; VTiles [tile]] w log
  = (Ok [ (child_at tile 0 0, i0); (child_at tile 0 1, i1);
          (child_at tile 0 1, i2); (child_at tile 1 0, i3) ],
     log ++ [HttpGet url]) /\
  child_at tile 0 1 <> child_at tile 1 0 /\
  child_at tile 1 0 <> child_at tile 1 1.
Proof.
  intros Hurl Hopen H0 H1 H2 H3. split.
  - unfold get_supertiles_images, get_supertiles_images_body, iter_tiles,
      attr_imagery, get_imagery.
    unfold mbind, mret, M_bind, M_ret, lift, raise, call.
    cbn [for_yield]. unfold mbind, mret, M_bind, M_ret.
    rewrite Hurl, Hopen, sort_children.
    unfold quadrant_indices. cbn [comprehension].
    unfold mbind, mret, result_bind, result_ret. cbn [Z.add Z.to_nat].
    rewrite H0, H1, H2, H3. reflexivity.
  - unfold child_at. split; intros H; injection H; lia.
Qed.

(** C1 at the tile (0, 0, 0). *)
Lemma get_supertiles_images_pairing_witness :
  let w := constant_world (respond 200 []) (respond 200 (Ok JNull))
             (respond 200 []) (respond 200 []) in
  let tile := mkTile 0 0 0 in
  get_supertiles_images [VObject example_object; VTiles [tile]] w []
  = (Ok [ (child_at tile 0 0, []); (child_at tile 0 1, []);
          (child_at tile 0 1, []); (child_at tile 1 0, []) ],
     [] ++ [HttpGet (imagery example_object)]) /\
  child_at tile 0 1 <> child_at tile 1 0 /\
  child_at tile 1 0 <> child_at tile 1 1.
Proof.
  intros w tile.
  apply (get_supertiles_images_pairing w example_object tile []
           (imagery example_object) no_dataset [] [] [] []);
    reflexivity.
Defined.

(** ** PredictionPostProcessor, classification *)

Lemma py_index_lookup {A} (l : list A) (i : nat) (a : A) :
  l !! i = Some a -> py_index l i = Ok a.
Proof. unfold py_index. intros ->. reflexivity. Qed.

Lemma py_index_out_of_range {A} (l : list A) (i : nat) :
  (length l <= i)%nat -> py_index l i = Raise IndexError.
Proof.
  intros H. unfold py_index. rewrite (lookup_ge_None_2 l i H). reflexivity.
Qed.

Lemma py_index_raises {A} (l : list A) (i : nat) (e : Exn) :
  py_index l i = Raise e -> e = IndexError.
Proof. unfold py_index. destruct (l !! i); congruence. Qed.

Lemma fill_pred_dict_ok (inferences : list string) (vec : list Q) :
  forall (j : nat) (d : PyDict.t Q),
    (j + length vec <= length inferences)%nat ->
    fill_pred_dict inferences j vec d
    = Ok (fold_left (fun d kv => PyDict.set d (fst kv) (snd kv))
            (zip (drop j inferences) vec) d).
Proof.
  induction vec as [|score vec IH]; intros j d Hlen; cbn [fill_pred_dict].
  - rewrite zip_with_nil_r. reflexivity.
  - cbn [length] in Hlen.
    destruct (lookup_lt_is_Some_2 inferences j ltac:(lia)) as [label Hlabel].
    rewrite (py_index_lookup _ _ _ Hlabel). run_M.
    rewrite IH by lia.
    rewrite (drop_S _ _ _ Hlabel). reflexivity.
Qed.

Lemma fill_pred_dict_raises (inferences : list string) (vec : list Q) :
  forall (j : nat) (d : PyDict.t Q) (e : Exn),
    fill_pred_dict inferences j vec d = Raise e -> e = IndexError.
Proof.
  induction vec as [|score vec IH]; intros j d e; cbn [fill_pred_dict].
  - discriminate.
  - destruct (py_index inferences j) as [label|e'] eqn:E; run_M.
    + apply IH.
    + intros [= <-]. exact (py_index_raises _ _ _ E).
Qed.

(** With enough vectors, none too long for the labels, the loop appends one
    record per tile. *)
Lemma cl_loop_ok (preds : list (list Q)) (prediction_id : string)
  (inferences : list string) (tiles : list Tile) :
  forall (i : nat) (pred_list : list PredictionRecord),
    (i + length tiles <= length preds)%nat ->
    Forall (fun vec => (length vec <= length inferences)%nat)
           (take (length tiles) (drop i preds)) ->
    cl_loop preds prediction_id inferences i tiles pred_list
    = Ok (pred_list ++
          zip_with (cl_record inferences prediction_id) tiles (drop i preds)).
Proof.
  induction tiles as [|tile tiles IH]; intros i pred_list Hlen Hvec;
    cbn [cl_loop].
  - cbn. rewrite app_nil_r. reflexivity.
  - cbn [length] in Hlen, Hvec.
    destruct (lookup_lt_is_Some_2 preds i ltac:(lia)) as [vec Hi].
    rewrite (drop_S _ _ _ Hi) in Hvec |- *.
    cbn [take] in Hvec. apply Forall_cons_1 in Hvec as [Hv Hrest].
    rewrite (py_index_lookup _ _ _ Hi). run_M.
    rewrite (fill_pred_dict_ok inferences vec 0 PyDict.empty) by (cbn; lia).
    run_M. rewrite IH by (assumption || lia).
    rewrite <- app_assoc. reflexivity.
Qed.

(** With too few vectors the loop ends in [IndexError]. *)
Lemma cl_loop_too_few (preds : list (list Q)) (prediction_id : string)
  (inferences : list string) (tiles : list Tile) :
  forall (i : nat) (pred_list : list PredictionRecord),
    (i <= length preds)%nat ->
    (length preds < i + length tiles)%nat ->
    cl_loop preds prediction_id inferences i tiles pred_list = Raise IndexError.
Proof.
  induction tiles as [|tile tiles IH]; intros i pred_list Hi0 Hlen;
    cbn [cl_loop]; cbn [length] in Hlen.
  - lia.
  - destruct (py_index preds i) as [vec|e] eqn:Hi; run_M.
    + assert (i < length preds)%nat.
      { apply lookup_lt_is_Some. unfold py_index in Hi.
        destruct (preds !! i); [eauto|discriminate]. }
      destruct (fill_pred_dict inferences 0 vec PyDict.empty) as [d|e] eqn:Hd;
        run_M.
      * apply IH; lia.
      * f_equal. exact (fill_pred_dict_raises _ _ _ _ _ Hd).
    + f_equal. exact (py_index_raises _ _ _ Hi).
Qed.

Lemma cl_post_prediction_run (w : World) (self : DownloadAndPredict)
  (payload : Payload) (tiles : list Tile) (prediction_id : string)
  (inferences : list string) (log : list Request) :
  let url := (prediction_endpoint self ++ ":predict")%string in
  let r := classifier w log url payload in
  cl_post_prediction self payload tiles prediction_id inferences w log =
  ((if ok r then
      pred_list ← cl_loop (resp_body r) prediction_id inferences 0 tiles [];
      Ok {| predictionId := prediction_id; doc_predictions := pred_list |}
    else Raise HTTPError),
   log ++ [HttpPost url payload]).
Proof.
  cbv zeta. unfold cl_post_prediction, post_classifier, raise_for_status.
  run_M. destruct (ok _); run_M; [|reflexivity].
  destruct (cl_loop _ _ _ _ _ _); reflexivity.
Qed.

(** C7: for a successful response that is aligned with the batch,
    [cl_post_prediction] returns a document with exactly one record per
    tile; the i-th record has the quadkey of the i-th tile, its predictions
    are the labels zipped with the i-th vector, and it has no geometry. *)
Theorem cl_post_prediction_records (w : World) (self : DownloadAndPredict)
  (payload : Payload) (tiles : list Tile) (prediction_id : string)
  (inferences : list string) (log : list Request) :
  let url := (prediction_endpoint self ++ ":predict")%string in
  let r := classifier w log url payload in
  ok r = true ->
  well_aligned (resp_body r) tiles inferences ->
  exists doc,
    cl_post_prediction self payload tiles prediction_id inferences w log
    = (Ok doc, log ++ [HttpPost url payload]) /\
    length (doc_predictions doc) = length tiles /\
    forall (i : nat) (tile : Tile),
      tiles !! i = Some tile ->
      exists vec rec,
        resp_body r !! i = Some vec /\
        doc_predictions doc !! i = Some rec /\
        rec_quadkey rec = quadkey (tile_x tile) (tile_y tile) (tile_z tile) /\
        rec_predictions rec = PyDict.of_items (zip inferences vec) /\
        rec_quadkey_geom rec = None.
Proof.
  intros url r Hok [Hlen Hvec].
  rewrite cl_post_prediction_run. fold url; fold r. rewrite Hok.
  rewrite (cl_loop_ok (resp_body r) prediction_id inferences tiles 0 []).
  - run_M. eexists. split; [reflexivity|]. cbn [doc_predictions].
    split.
    + rewrite drop_0, length_zip_with. lia.
    + intros i tile Hi.
      destruct (lookup_lt_is_Some_2 (resp_body r) i) as [vec Hv].
      { rewrite Hlen. apply lookup_lt_is_Some. eauto. }
      exists vec, (cl_record inferences prediction_id tile vec).
      split; [exact Hv|]. split; [|repeat split].
      rewrite drop_0, lookup_zip_with, Hi, Hv. reflexivity.
  - cbn. lia.
  - rewrite drop_0, <- Hlen, firstn_all. exact Hvec.
Qed.

(** C7 at a batch of two tiles and two labels. *)
Lemma cl_post_prediction_records_witness :
  let w := constant_world (respond 200 []) (respond 200 (Ok JNull))
             (respond 200 [[0.9; 0.1]; [0.2; 0.8]]%Q) (respond 200 []) in
  let tiles := [mkTile 4 5 3; mkTile 0 0 1] in
  let inferences := ["building"; "not_building"] in
  let payload := {| instances := [] |} in
  let url := (prediction_endpoint example_object ++ ":predict")%string in
  exists doc,
    cl_post_prediction example_object payload tiles "7" inferences w []
    = (Ok doc, [] ++ [HttpPost url payload]) /\
    length (doc_predictions doc) = length tiles /\
    forall (i : nat) (tile : Tile),
      tiles !! i = Some tile ->
      exists vec rec,
        resp_body (classifier w [] url payload) !! i = Some vec /\
        doc_predictions doc !! i = Some rec /\
        rec_quadkey rec = quadkey (tile_x tile) (tile_y tile) (tile_z tile) /\
        rec_predictions rec = PyDict.of_items (zip inferences vec) /\
        rec_quadkey_geom rec = None.
Proof.
  intros w tiles inferences payload url.
  apply (cl_post_prediction_records w example_object payload tiles "7"
           inferences []).
  - reflexivity.
  - split; [reflexivity|]. repeat constructor.
Defined.

(** C4, counterexample: one tile and two prediction vectors; the counts
    differ and [cl_post_prediction] returns a result document. *)
Lemma cl_post_prediction_surplus_counterexample :
  let w := constant_world (respond 200 []) (respond 200 (Ok JNull))
             (respond 200 [[0.9]; [0.1]]%Q) (respond 200 []) in
  let tiles := [mkTile 4 5 3] in
  let url := (prediction_endpoint example_object ++ ":predict")%string in
  length (resp_body (classifier w [] url {| instances := [] |})) <> length tiles /\
  fst (cl_post_prediction example_object {| instances := [] |} tiles "7"
         ["building"] w [])
  = Ok {| predictionId := "7";
          doc_predictions :=
            [ {| rec_quadkey := "302"; rec_quadkey_geom := None;
                 rec_predictions := [("building", 0.9%Q)];
                 rec_prediction_id := "7" |} ] |}.
Proof. split; [discriminate|reflexivity]. Qed.

(** C4 (amended): after a successful request, when the server returned
    fewer prediction vectors than there are tiles, [cl_post_prediction]
    raises [IndexError] and returns no document; when it returned more, and
    the vectors of the tiles are not longer than the list of labels, the
    surplus vectors are ignored and the document has one record per tile. *)
Theorem cl_post_prediction_count_mismatch (w : World) (self : DownloadAndPredict)
  (payload : Payload) (tiles : list Tile) (prediction_id : string)
  (inferences : list string) (log : list Request) :
  let url := (prediction_endpoint self ++ ":predict")%string in
  let r := classifier w log url payload in
  let out := cl_post_prediction self payload tiles prediction_id inferences w log in
  ok r = true ->
  ((length (resp_body r) < length tiles)%nat ->
   out = (Raise IndexError, log ++ [HttpPost url payload])) /\
  ((length tiles < length (resp_body r))%nat ->
   Forall (fun vec => (length vec <= length inferences)%nat)
          (take (length tiles) (resp_body r)) ->
   out = (Ok {| predictionId := prediction_id;
                doc_predictions :=
                  zip_with (cl_record inferences prediction_id) tiles
                           (resp_body r) |},
          log ++ [HttpPost url payload]) /\
   length (zip_with (cl_record inferences prediction_id) tiles (resp_body r))
   = length tiles).
Proof.
  intros url r out Hok. subst out.
  rewrite cl_post_prediction_run. fold url; fold r. rewrite Hok.
  split.
  - intros Hlen. rewrite cl_loop_too_few by (cbn; lia). reflexivity.
  - intros Hlen Hvec.
    rewrite (cl_loop_ok (resp_body r) prediction_id inferences tiles 0 [])
      by (cbn; lia || (rewrite drop_0; exact Hvec)).
    rewrite drop_0. split; [reflexivity|].
    rewrite length_zip_with. lia.
Qed.

(** C4, the amended statement at work: one tile with no vector, and one
    tile with two vectors. *)
Lemma cl_post_prediction_count_mismatch_witness :
  let few := constant_world (respond 200 []) (respond 200 (Ok JNull))
               (respond 200 []) (respond 200 []) in
  let many := constant_world (respond 200 []) (respond 200 (Ok JNull))
                (respond 200 [[0.9]; [0.1]]%Q) (respond 200 []) in
  let payload := {| instances := [] |} in
  let url := (prediction_endpoint example_object ++ ":predict")%string in
  cl_post_prediction example_object payload [mkTile 4 5 3] "7" ["building"] few []
  = (Raise IndexError, [] ++ [HttpPost url payload]) /\
  cl_post_prediction example_object payload [mkTile 4 5 3] "7" ["building"] many []
  = (Ok {| predictionId := "7";
           doc_predictions :=
             zip_with (cl_record ["building"] "7") [mkTile 4 5 3]
                      (resp_body (classifier many [] url payload)) |},
     [] ++ [HttpPost url payload]).
Proof.
  intros few many payload url. split.
  - apply (cl_post_prediction_count_mismatch few example_object payload
             [mkTile 4 5 3] "7" ["building"] []); [reflexivity|cbn; lia].
  - apply (cl_post_prediction_count_mismatch many example_object payload
             [mkTile 4 5 3] "7" ["building"] []);
      [reflexivity|cbn; lia|repeat constructor].
Defined.

(** ** PredictionPostProcessor, detection *)

Lemma comprehension_length {A B} (f : A -> result B) (l : list A) :
  forall ys, comprehension f l = Ok ys -> length ys = length l.
Proof.
  induction l as [|x xs IH]; intros ys; cbn [comprehension].
  - intros [= <-]. reflexivity.
  - destruct (f x) as [y|e]; run_M; [|discriminate].
    destruct (comprehension f xs) as [ys'|e]; run_M; [|discriminate].
    intros [= <-]. cbn. rewrite (IH ys' eq_refl). reflexivity.
Qed.

Lemma comprehension_total {A B} (f : A -> result B) (l : list A) :
  (forall x, In x l -> is_ok (f x) = true) ->
  exists ys, comprehension f l = Ok ys.
Proof.
  induction l as [|x xs IH]; intros Hf; cbn [comprehension].
  - exists []. reflexivity.
  - pose proof (Hf x (or_introl eq_refl)) as Hx.
    destruct (f x) as [y|e]; [|discriminate].
    destruct IH as [ys Hys]; [intros z Hz; apply Hf; right; exact Hz|].
    exists (y :: ys). run_M. rewrite Hys. reflexivity.
Qed.

Lemma py_int_nonneg (x : Q) : (0 <= x)%Q -> 0 <= py_int x.
Proof.
  unfold Qle, py_int; cbn. intros H.
  apply Z.quot_pos; lia.
Qed.

Lemma length_py_slice_to {A} (l : list A) (n : Z) :
  0 <= n -> length (py_slice_to l n) = Nat.min (Z.to_nat n) (length l).
Proof.
  intros Hn. unfold py_slice_to.
  destruct (Z.leb_spec 0 n); [|lia]. apply length_take.
Qed.

Lemma length_scale_256 (bboxes : list (list Q)) :
  length (scale_256 bboxes) = length bboxes.
Proof. unfold scale_256. apply length_map. Qed.

Lemma tf_bbox_geo_total (bbox : list Q) (tile : Tile) :
  (4 <= length bbox)%nat -> is_ok (Geo.tf_bbox_geo bbox tile) = true.
Proof.
  destruct bbox as [|b0 [|b1 [|b2 [|b3 rest]]]]; cbn [length]; try lia.
  intros _. reflexivity.
Qed.

Lemma od_records_length (preds : Detections) (bboxes_256 : list (list Q))
  (tile : Tile) (prediction_id : string) (recs : list PredictionRecord) :
  od_records preds bboxes_256 tile prediction_id = Ok recs ->
  length recs = length bboxes_256.
Proof.
  unfold od_records. intros H.
  rewrite (comprehension_length _ _ _ H). apply length_seq.
Qed.

Lemma od_records_total (preds : Detections) (bboxes_256 : list (list Q))
  (tile : Tile) (prediction_id : string) :
  Forall (fun bbox => (4 <= length bbox)%nat) bboxes_256 ->
  (length bboxes_256 <= length (detection_scores preds))%nat ->
  exists recs, od_records preds bboxes_256 tile prediction_id = Ok recs.
Proof.
  intros Hbox Hscores. unfold od_records.
  apply comprehension_total. intros j Hj.
  apply in_seq in Hj.
  destruct (lookup_lt_is_Some_2 bboxes_256 j ltac:(lia)) as [bbox Hb].
  destruct (lookup_lt_is_Some_2 (detection_scores preds) j ltac:(lia))
    as [score Hs].
  rewrite (py_index_lookup _ _ _ Hb), (py_index_lookup _ _ _ Hs). run_M.
  assert (Hlen : (4 <= length bbox)%nat).
  { rewrite Forall_forall in Hbox. apply Hbox.
    eapply list_elem_of_lookup_2. exact Hb. }
  pose proof (tf_bbox_geo_total bbox tile Hlen) as Hok.
  destruct (Geo.tf_bbox_geo bbox tile); [reflexivity|discriminate].
Qed.

Lemma od_tile_zero (preds : Detections) (tile : Tile) (prediction_id : string) :
  (num_detections preds == 0)%Q -> od_tile preds tile prediction_id = Ok [].
Proof.
  intros H. unfold od_tile.
  apply Qeq_bool_iff in H. rewrite H. reflexivity.
Qed.

Lemma od_tile_length (preds : Detections) (tile : Tile) (prediction_id : string)
  (records : list PredictionRecord) :
  (0 <= num_detections preds)%Q ->
  od_tile preds tile prediction_id = Ok records ->
  length records
  = Nat.min (Z.to_nat (py_int (num_detections preds)))
            (length (detection_boxes preds)).
Proof.
  intros Hnn. unfold od_tile.
  destruct (Qeq_bool (num_detections preds) 0) eqn:Hz.
  - intros [= <-]. apply Qeq_bool_iff in Hz.
    unfold py_int. unfold Qeq in Hz; cbn in Hz.
    replace (Qnum (num_detections preds)) with 0 by lia. reflexivity.
  - intros H. rewrite (od_records_length _ _ _ _ _ H), length_scale_256.
    apply length_py_slice_to, py_int_nonneg, Hnn.
Qed.

(** One turn of the loop over the tiles, for a successful response whose
    first prediction is [preds]. *)
Lemma od_loop_step (w : World) (self : DownloadAndPredict) (payload : Payload)
  (prediction_id : string) (i : nat) (tile : Tile) (tiles : list Tile)
  (pred_list : list PredictionRecord) (log : list Request)
  (instance : Instance) (preds : Detections) (rest : list Detections) :
  let url := (prediction_endpoint self ++ ":predict")%string in
  let request := {| instances := [instance] |} in
  let r := detector w log url request in
  py_index (instances payload) i = Ok instance ->
  ok r = true ->
  resp_body r = preds :: rest ->
  od_loop self payload prediction_id i (tile :: tiles) pred_list w log =
  match od_tile preds tile prediction_id with
  | Ok records =>
      od_loop self payload prediction_id (S i) tiles (pred_list ++ records)
        w (log ++ [HttpPost url request])
  | Raise e => (Raise e, log ++ [HttpPost url request])
  end.
Proof.
  intros url request r Hinst Hok Hbody.
  cbn [od_loop]. unfold post_detector, raise_for_status.
  unfold mbind, mret, M_bind, M_ret, lift, raise.
  rewrite Hinst. fold url; fold request; fold r.
  rewrite Hok, Hbody. cbn [py_index lookup list_lookup].
  destruct (od_tile preds tile prediction_id); reflexivity.
Qed.

(** C8, counterexample: the server reports [num_detections = -1] with two
    boxes; [int(-1.0)] is -1, the slice [[:-1]] keeps one box, and one
    record is emitted for the tile. *)
Lemma od_tile_negative_count_counterexample :
  let preds := {| num_detections := (-1)%Q;
                  detection_scores := [0.9; 0.8]%Q;
                  detection_boxes := [[0; 0; 1; 1]; [0; 0; 1; 1]]%Q |} in
  py_int (num_detections preds) = -1 /\
  exists records,
    od_tile preds (mkTile 4 5 3) "7" = Ok records /\
    length records = 1%nat /\
    ~ (Z.of_nat (length records) <= py_int (num_detections preds)).
Proof.
  intros preds. split; [reflexivity|].
  destruct (od_records_total preds
              (scale_256 (py_slice_to (detection_boxes preds) (-1)))
              (mkTile 4 5 3) "7") as [records Hrec].
  - subst preds. repeat constructor; cbn; lia.
  - subst preds. vm_compute. lia.
  - exists records. split; [exact Hrec|].
    apply od_records_length in Hrec. subst preds.
    change (length records = 1%nat) in Hrec.
    split; [exact Hrec|]. rewrite Hrec. change (~ (1 <= -1)). lia.
Qed.

(** C8 (amended): for a tile whose response reports a non-negative
    [num_detections], the records emitted for the tile are at most
    [int(num_detections)]; when [num_detections == 0] there is none, no
    error is raised and the loop goes on with the next tile; and when every
    kept box has its four coordinates and a score, the records are emitted
    without error, one per kept box. *)
Theorem od_tile_record_count (w : World) (self : DownloadAndPredict)
  (payload : Payload) (prediction_id : string) (i : nat) (tile : Tile)
  (tiles : list Tile) (pred_list : list PredictionRecord) (log : list Request)
  (instance : Instance) (preds : Detections) (rest : list Detections) :
  let url := (prediction_endpoint self ++ ":predict")%string in
  let request := {| instances := [instance] |} in
  let r := detector w log url request in
  let n := py_int (num_detections preds) in
  py_index (instances payload) i = Ok instance ->
  ok r = true ->
  resp_body r = preds :: rest ->
  (0 <= num_detections preds)%Q ->
  (forall records,
     od_tile preds tile prediction_id = Ok records ->
     Z.of_nat (length records) <= n) /\
  ((num_detections preds == 0)%Q ->
   od_tile preds tile prediction_id = Ok [] /\
   od_loop self payload prediction_id i (tile :: tiles) pred_list w log
   = od_loop self payload prediction_id (S i) tiles pred_list
       w (log ++ [HttpPost url request])) /\
  (Forall (fun bbox => (4 <= length bbox)%nat)
          (py_slice_to (detection_boxes preds) n) ->
   (length (py_slice_to (detection_boxes preds) n)
    <= length (detection_scores preds))%nat ->
   exists records,
     od_tile preds tile prediction_id = Ok records /\
     length records = Nat.min (Z.to_nat n) (length (detection_boxes preds))).
Proof.
  intros url request r n Hinst Hok Hbody Hnn.
  pose proof (py_int_nonneg _ Hnn) as Hn. fold n in Hn.
  split; [|split].
  - intros records Hrec.
    rewrite (od_tile_length _ _ _ _ Hnn Hrec). fold n. lia.
  - intros Hzero. pose proof (od_tile_zero preds tile prediction_id Hzero) as Hz.
    split; [exact Hz|].
    rewrite (od_loop_step w self payload prediction_id i tile tiles pred_list
               log instance preds rest Hinst Hok Hbody).
    rewrite Hz, app_nil_r. reflexivity.
  - intros Hbox Hscores.
    destruct (Qeq_bool (num_detections preds) 0) eqn:Hz.
    + exists []. apply Qeq_bool_iff in Hz.
      pose proof (od_tile_zero preds tile prediction_id Hz) as H0.
      split; [exact H0|].
      exact (od_tile_length _ _ _ _ Hnn H0).
    + destruct (od_records_total preds
                  (scale_256 (py_slice_to (detection_boxes preds) n))
                  tile prediction_id) as [records Hrec].
      * unfold scale_256. rewrite Forall_map.
        eapply Forall_impl; [exact Hbox|].
        intros bbox Hb. cbn. rewrite length_map. exact Hb.
      * rewrite length_scale_256. exact Hscores.
      * exists records.
        assert (Ht : od_tile preds tile prediction_id = Ok records).
        { unfold od_tile. rewrite Hz. exact Hrec. }
        split; [exact Ht|]. exact (od_tile_length _ _ _ _ Hnn Ht).
Qed.

(** C8, the amended statement at work: one detection for the tile
    (4, 5, 3), the scenario of the specification. *)
Lemma od_tile_record_count_witness :
  let preds := {| num_detections := 1%Q;
                  detection_scores := [0.9]%Q;
                  detection_boxes := [[0.25; 0.25; 0.75; 0.75]]%Q |} in
  let w := constant_world (respond 200 []) (respond 200 (Ok JNull))
             (respond 200 []) (respond 200 [preds]) in
  let instance := {| inst_key := key_inputs; inst_b64 := "" |} in
  let payload := {| instances := [instance] |} in
  let tile := mkTile 4 5 3 in
  let url := (prediction_endpoint example_object ++ ":predict")%string in
  let n := py_int (num_detections preds) in
  (forall records,
     od_tile preds tile "7" = Ok records -> Z.of_nat (length records) <= n) /\
  ((num_detections preds == 0)%Q ->
   od_tile preds tile "7" = Ok [] /\
   od_loop example_object payload "7" 0 [tile] [] w []
   = od_loop example_object payload "7" 1 [] []
       w ([] ++ [HttpPost url {| instances := [instance] |}])) /\
  (Forall (fun bbox => (4 <= length bbox)%nat)
          (py_slice_to (detection_boxes preds) n) ->
   (length (py_slice_to (detection_boxes preds) n)
    <= length (detection_scores preds))%nat ->
   exists records,
     od_tile preds tile "7" = Ok records /\
     length records = Nat.min (Z.to_nat n) (length (detection_boxes preds))).
Proof.
  intros preds w instance payload tile url n.
  apply (od_tile_record_count w example_object payload "7" 0%nat tile [] [] []
           instance preds []).
  - reflexivity.
  - reflexivity.
  - reflexivity.
  - unfold Qle; cbn. lia.
Defined.

(** ** GeoTransformer *)

Section GeoTransformer.

Local Open Scope R_scope.

Lemma Q2R_256 : Q2R 256 = 256.
Proof. unfold Q2R; cbn. rewrite Rinv_1. lra. Qed.

Lemma Q2R_zero : Q2R 0 = 0.
Proof. unfold Q2R; cbn. lra. Qed.

Lemma Z2_pos (zoom : Z) : 0 < powerRZ 2 zoom.
Proof. apply powerRZ_lt. lra. Qed.

(** The eastern edge of a tile lies east of its western edge. *)
Lemma bounds_west_lt_east (xtile ytile zoom : Z) :
  Geo.west (Geo.bounds xtile ytile zoom) < Geo.east (Geo.bounds xtile ytile zoom).
Proof.
  unfold Geo.bounds; cbn [Geo.west Geo.east].
  rewrite plus_IZR. unfold Rdiv.
  pose proof (Rinv_0_lt_compat _ (Z2_pos zoom)) as Hk.
  set (k := / powerRZ 2 zoom) in *. nra.
Qed.

(** The northern edge of a tile lies north of its southern edge: the
    latitude decreases with the row. *)
Lemma bounds_south_lt_north (xtile ytile zoom : Z) :
  Geo.south (Geo.bounds xtile ytile zoom) < Geo.north (Geo.bounds xtile ytile zoom).
Proof.
  unfold Geo.bounds; cbn [Geo.south Geo.north]. unfold Geo.degrees.
  apply Rmult_lt_compat_r.
  - apply Rdiv_lt_0_compat; [lra|apply PI_RGT_0].
  - apply atan_increasing, sinh_lt.
    apply Rmult_lt_compat_l; [apply PI_RGT_0|].
    rewrite plus_IZR. unfold Rdiv.
    pose proof (Rinv_0_lt_compat _ (Z2_pos zoom)) as Hk.
    set (k := / powerRZ 2 zoom) in *. nra.
Qed.

(** The full-tile rectangle is mapped to the four corners of the tile. *)
Lemma tf_bbox_geo_full_tile (tile : Tile) :
  let b := Geo.bounds (tile_x tile) (tile_y tile) (tile_z tile) in
  Geo.tf_bbox_geo [0; 0; 256; 256]%Q tile
  = Ok [ (Geo.east b, Geo.north b); (Geo.east b, Geo.south b);
         (Geo.west b, Geo.south b); (Geo.west b, Geo.north b);
         (Geo.east b, Geo.north b) ].
Proof.
  intros b.
  unfold Geo.tf_bbox_geo, Geo.reorder, Geo.tile_affine, Geo.xoff, Geo.yoff.
  cbn [py_index lookup list_lookup mbind result_bind Geo.box_of Geo.box
       Geo.affine_transform map Geo.af_a Geo.af_b Geo.af_c Geo.af_d
       Geo.af_e Geo.af_f].
  fold b. rewrite Q2R_256, Q2R_zero.
  repeat match goal with
         | |- Ok _ = Ok _ => f_equal
         | |- _ :: _ = _ :: _ => f_equal
         | |- (_, _) = (_, _) => f_equal
         end; lra.
Qed.

(** C10: for every tile, in particular for every tile with
    [0 <= x, y < 2^z], [tf_bbox_geo] maps the full-tile rectangle
    (0, 0, 256, 256) to a polygon whose bounds are the bounds of the tile,
    (west, south, east, north). *)
Theorem tf_bbox_geo_full_tile_bounds (tile : Tile) :
  exists polygon,
    Geo.tf_bbox_geo [0; 0; 256; 256]%Q tile = Ok polygon /\
    Geo.ring_bounds polygon = Some (Geo.bounds_tuple tile).
Proof.
  eexists. split; [apply tf_bbox_geo_full_tile|].
  unfold Geo.bounds_tuple.
  pose proof (bounds_west_lt_east (tile_x tile) (tile_y tile) (tile_z tile)) as Hx.
  pose proof (bounds_south_lt_north (tile_x tile) (tile_y tile) (tile_z tile)) as Hy.
  destruct (Geo.bounds (tile_x tile) (tile_y tile) (tile_z tile)) as [w s e n].
  cbn [Geo.west Geo.south Geo.east Geo.north] in *.
  unfold Geo.ring_bounds. cbn [foldr fst snd].
  unfold Rmin, Rmax.
  repeat match goal with
         | |- context [Rle_dec ?a ?b] =>
             lazymatch a with
             | context [Rle_dec] => fail
             | _ => lazymatch b with
                    | context [Rle_dec] => fail
                    | _ => destruct (Rle_dec a b); try lra
                    end
             end
         end.
  reflexivity.
Qed.

End GeoTransformer.

(** * Further properties *)

(** ** Dictionaries *)

Lemma PyDict_get_set_eq {V} (d : PyDict.t V) (k : string) (v : V) :
  PyDict.get (PyDict.set d k v) k = Some v.
Proof.
  induction d as [|[k' v'] d IH]; cbn.
  - rewrite String.eqb_refl. reflexivity.
  - destruct (String.eqb k k') eqn:E; cbn; rewrite E; [reflexivity|exact IH].
Qed.

Lemma PyDict_get_set_ne {V} (d : PyDict.t V) (k k' : string) (v : V) :
  k <> k' -> PyDict.get (PyDict.set d k v) k' = PyDict.get d k'.
Proof.
  intros Hne. induction d as [|[k0 v0] d IH]; cbn.
  - destruct (String.eqb_spec k' k); [congruence|reflexivity].
  - destruct (String.eqb_spec k k0) as [->|Hk]; cbn.
    + destruct (String.eqb_spec k' k0); [congruence|reflexivity].
    + destruct (String.eqb_spec k' k0); [reflexivity|exact IH].
Qed.

Lemma PyDict_get_fold_set {V} (items : list (string * V)) :
  forall (d : PyDict.t V) (k : string),
    PyDict.get
      (fold_left (fun d kv => PyDict.set d (fst kv) (snd kv)) items d) k
    = match PyDict.get (rev items) k with
      | Some v => Some v
      | None => PyDict.get d k
      end.
Proof.
  induction items as [|[k0 v0] items IH]; intros d k; cbn [fold_left rev].
  - reflexivity.
  - rewrite IH. cbn [fst snd].
    assert (Happ : forall (l1 l2 : PyDict.t V),
               PyDict.get (l1 ++ l2) k
               = match PyDict.get l1 k with
                 | Some v => Some v
                 | None => PyDict.get l2 k
                 end).
    { induction l1 as [|[k1 v1] l1 IHl]; intros l2; cbn; [reflexivity|].
      destruct (String.eqb k k1); [reflexivity|apply IHl]. }
    rewrite Happ. destruct (PyDict.get (rev items) k); [reflexivity|].
    cbn. destruct (String.eqb_spec k k0) as [->|Hk].
    + apply PyDict_get_set_eq.
    + apply PyDict_get_set_ne. congruence.
Qed.

(** The dictionary built from a sequence of items gives every key the value
    of its last item. *)
Lemma PyDict_get_of_items {V} (items : list (string * V)) (k : string) :
  PyDict.get (PyDict.of_items items) k = PyDict.get (rev items) k.
Proof.
  unfold PyDict.of_items. rewrite PyDict_get_fold_set.
  destruct (PyDict.get (rev items) k); reflexivity.
Qed.

(** ** TileBatchExtractor, continued *)

Lemma Tile_new_cases (args : list Z) :
  match Tile_new args with
  | Ok t => args = [tile_x t; tile_y t; tile_z t]
  | Raise e => e = TypeError /\ length args <> 3%nat
  end.
Proof.
  destruct args as [|x [|y [|z [|u rest]]]]; cbn; try (split; [reflexivity|lia]).
  reflexivity.
Qed.

Lemma get_tiles_cases (event : SQSEvent) :
  match get_tiles event with
  | Ok tiles =>
      Forall2 (fun record t =>
                 PyDict.values (json_loads (body record))
                 = [tile_x t; tile_y t; tile_z t])
              (Records event) tiles
  | Raise e =>
      e = TypeError /\
      Exists (fun record => length (json_loads (body record)) <> 3%nat)
             (Records event)
  end.
Proof.
  unfold get_tiles. induction (Records event) as [|record records IH];
    cbn [comprehension].
  - constructor.
  - pose proof (Tile_new_cases (PyDict.values (json_loads (body record)))) as Ht.
    destruct (Tile_new _) as [t|e]; run_M.
    + destruct (comprehension _ records) as [ts|e]; run_M.
      * constructor; assumption.
      * destruct IH as [-> Hex]. split; [reflexivity|].
        apply Exists_cons_tl. exact Hex.
    + destruct Ht as [-> Hlen]. split; [reflexivity|].
      apply Exists_cons_hd. unfold PyDict.values in Hlen.
      rewrite length_map in Hlen. exact Hlen.
Qed.

Lemma three_values_three_fields (b : Body) (x y z : Z) :
  PyDict.values (json_loads b) = [x; y; z] -> length (json_loads b) = 3%nat.
Proof.
  intros H. apply (f_equal length) in H.
  unfold PyDict.values in H. rewrite length_map in H. exact H.
Qed.

(** X1: for message bodies that are JSON objects with integer values. When
    [get_tiles] returns, it returns one tile per record, in the order of the
    records, the tile of a record being the first, second and third value of
    its parsed body. It returns whenever every body has exactly three fields
    and its third value, the zoom, is not negative (a zoom that later
    versions of mercantile accept). It does not return when some body does
    not have exactly three fields. *)
Theorem get_tiles_outcome (event : SQSEvent) :
  (forall tiles,
     get_tiles event = Ok tiles ->
     Forall2 (fun record t =>
                PyDict.values (json_loads (body record))
                = [tile_x t; tile_y t; tile_z t])
             (Records event) tiles) /\
  (Forall (fun record =>
             exists x y z,
               PyDict.values (json_loads (body record)) = [x; y; z] /\ 0 <= z)
          (Records event) ->
   is_ok (get_tiles event) = true) /\
  (Exists (fun record => length (json_loads (body record)) <> 3%nat)
          (Records event) ->
   is_ok (get_tiles event) = false).
Proof.
  pose proof (get_tiles_cases event) as Hc.
  split; [|split].
  - intros tiles H. rewrite H in Hc. exact Hc.
  - intros Hall. destruct (get_tiles event) as [tiles|e]; [reflexivity|].
    destruct Hc as [_ Hex]. exfalso.
    apply Exists_exists in Hex as (record & Hin & Hlen).
    rewrite Forall_forall in Hall.
    destruct (Hall record Hin) as (x & y & z & Hv & _).
    apply Hlen. exact (three_values_three_fields _ _ _ _ Hv).
  - intros Hex. destruct (get_tiles event) as [tiles|e]; [|reflexivity].
    exfalso. induction Hc as [|record t records tiles Hv _ IH].
    + inversion Hex.
    + inversion Hex as [? ? Hlen|? ? Hrest]; subst.
      * apply Hlen. exact (three_values_three_fields _ _ _ _ Hv).
      * exact (IH Hrest).
Qed.

(** X2: a field name written more than once in a body counts once, with the
    value written last: the parsed body gives every name the value of its
    last occurrence, so such a body still yields a tile when three distinct
    names remain. *)
Theorem json_loads_last_value (b : Body) (k : string) :
  PyDict.get (json_loads b) k = PyDict.get (rev b) k.
Proof. apply PyDict_get_of_items. Qed.

(** ** ModelTypeDetector, continued *)

Lemma json_getitem_raises (obj : json) (key : string) (e : Exn) :
  json_getitem obj key = Raise e ->
  (e = KeyError /\ exists d, obj = JObj d /\ PyDict.get d key = None) \/
  (e = TypeError /\ forall d, obj <> JObj d).
Proof.
  destruct obj as [| | | | |d]; cbn;
    try (intros [= <-]; right; split; [reflexivity|intros d; discriminate]).
  unfold PyDict.getitem. destruct (PyDict.get d key) eqn:E; [discriminate|].
  intros [= <-]. left. split; [reflexivity|]. exists d. split; [reflexivity|exact E].
Qed.

(** X3: [get_meta] issues exactly one request, a GET of the metadata URL,
    whatever the outcome. When it returns, the object holds the whole
    metadata document and its three endpoints are unchanged. When it raises,
    the exception is [HTTPError] for an error status (also when the body is
    not JSON: the status is checked first); else the exception of
    [r.json()]; else [KeyError] or [TypeError] from the lookup of the
    signature, or [AttributeError] when the input map is not a dictionary. *)
Theorem get_meta_effects (w : World) (self : DownloadAndPredict)
  (log : list Request) :
  let url := (prediction_endpoint self ++ "/metadata")%string in
  let r := metadata_server w log url in
  snd (get_meta self w log) = log ++ [HttpGet url] /\
  match fst (get_meta self w log) with
  | Ok (_, self') =>
      ok r = true /\
      resp_body r = Ok (meta self') /\
      imagery self' = imagery self /\
      mlenabler_endpoint self' = mlenabler_endpoint self /\
      prediction_endpoint self' = prediction_endpoint self
  | Raise e =>
      (ok r = false /\ e = HTTPError) \/
      (ok r = true /\ resp_body r = Raise e) \/
      (ok r = true /\ exists m,
         resp_body r = Ok m /\
         ((serving_inputs m = Raise e /\ (e = KeyError \/ e = TypeError)) \/
          (e = AttributeError /\
           exists i, serving_inputs m = Ok i /\ forall d, i <> JObj d)))
  end.
Proof.
  cbv zeta. rewrite get_meta_run. cbn [fst snd]. split; [reflexivity|].
  destruct (ok _) eqn:Hok; [|left; split; reflexivity].
  destruct (resp_body _) as [m|e] eqn:Hm; run_M;
    [|right; left; split; reflexivity].
  destruct (serving_inputs m) as [i|e] eqn:Hi; [|run_M].
  - destruct i as [| | | | |d];
      try (cbn; right; right; split; [reflexivity|]; exists m;
           split; [reflexivity|]; right; split; [reflexivity|];
           eexists; split; [eassumption|]; intros d; discriminate).
    rewrite model_type_of_inputs_dict.
    destruct (PyDict.get d "inputs") as [v|]; [destruct (is_not_None v)|];
      cbn; repeat split; reflexivity.
  - right; right. split; [reflexivity|]. exists m. split; [reflexivity|].
    left. split; [exact Hi|].
    unfold serving_inputs in Hi. revert Hi. run_M.
    repeat match goal with
           | |- context [json_getitem ?o ?k] =>
               let E := fresh "E" in
               destruct (json_getitem o k) eqn:E;
               [|intros [= <-];
                 destruct (json_getitem_raises _ _ _ E) as [[-> _]|[-> _]];
                 auto]
           end.
    discriminate.
Qed.

(** ** ImageryFetcher, continued *)

Lemma get_images_format_fails (w : World) (self : DownloadAndPredict)
  (tile : Tile) (tiles : list Tile) (log : list Request) (e : Exn) :
  str_format w (imagery self) tile = Raise e ->
  get_images [VObject self; VTiles (tile :: tiles)] w log = (Raise e, log).
Proof.
  intros H. unfold get_images, get_images_body, get_imagery. run_M.
  rewrite H. reflexivity.
Qed.

(** X4: when the URL of every tile can be formatted, [get_images] returns
    one pair per tile, in the order of the tiles, after exactly one GET per
    tile, in that order; the status codes of the responses play no part, so
    an error status raises nothing here. *)
Theorem get_images_requests (w : World) (self : DownloadAndPredict)
  (tiles : list Tile) (urls : list string) (log : list Request) :
  Forall2 (fun t u => str_format w (imagery self) t = Ok u) tiles urls ->
  exists pairs,
    get_images [VObject self; VTiles tiles] w log
    = (Ok pairs, log ++ map HttpGet urls) /\
    map fst pairs = tiles.
Proof.
  intros H. revert log.
  induction H as [|tile url tiles urls Hurl _ IH]; intros log.
  - exists []. cbn. rewrite app_nil_r. split; reflexivity.
  - destruct (IH (log ++ [HttpGet url])) as (rest & Hrun & Hfst).
    exists ((tile, resp_body (imagery_server w log url)) :: rest).
    rewrite (get_images_run w self tile tiles log url Hurl), Hrun.
    cbn [map fst]. rewrite <- app_assoc, Hfst. split; reflexivity.
Qed.

(** X4 at two tiles that the server answers with status 404. *)
Lemma get_images_requests_witness :
  let w := constant_world (respond 404 []) (respond 200 (Ok JNull))
             (respond 200 []) (respond 200 []) in
  let tiles := [mkTile 4 5 3; mkTile 0 0 0] in
  let urls := [imagery example_object; imagery example_object] in
  exists pairs,
    get_images [VObject example_object; VTiles tiles] w []
    = (Ok pairs, [] ++ map HttpGet urls) /\
    map fst pairs = tiles.
Proof.
  intros w tiles urls.
  apply (get_images_requests w example_object tiles urls []).
  repeat constructor.
Defined.

(** X5: when the URL of a tile cannot be formatted, [get_images] raises the
    exception of the formatting and returns no pair at all; the requests of
    the tiles before it have been issued, and none after. *)
Theorem get_images_format_error (w : World) (self : DownloadAndPredict)
  (before after : list Tile) (tile : Tile) (urls : list string) (e : Exn)
  (log : list Request) :
  Forall2 (fun t u => str_format w (imagery self) t = Ok u) before urls ->
  str_format w (imagery self) tile = Raise e ->
  get_images [VObject self; VTiles (before ++ tile :: after)] w log
  = (Raise e, log ++ map HttpGet urls).
Proof.
  intros H Hfail. revert log.
  induction H as [|t url ts urls Hurl _ IH]; intros log.
  - cbn [app map]. rewrite app_nil_r.
    apply get_images_format_fails. exact Hfail.
  - cbn [app]. rewrite (get_images_run w self t _ log url Hurl), IH.
    cbn [map]. rewrite <- app_assoc. reflexivity.
Qed.

(** X5 with a template that can be formatted for zoom 3 only. *)
Lemma get_images_format_error_witness :
  let w := {| str_format := fun template t =>
                if tile_z t =? 3 then Ok template else Raise KeyError;
              b64encode := fun _ => "";
              memfile_open := fun _ => Ok no_dataset;
              imagery_server := fun _ _ => respond 200 [];
              metadata_server := fun _ _ => respond 200 (Ok JNull);
              classifier := fun _ _ _ => respond 200 [];
              detector := fun _ _ _ => respond 200 [] |} in
  get_images [VObject example_object;
              VTiles ([mkTile 4 5 3] ++ mkTile 0 0 0 :: [mkTile 1 1 3])] w []
  = (Raise KeyError, [] ++ map HttpGet [imagery example_object]).
Proof.
  intros w.
  apply (get_images_format_error w example_object [mkTile 4 5 3] [mkTile 1 1 3]
           (mkTile 0 0 0) [imagery example_object] KeyError []).
  - repeat constructor.
  - reflexivity.
Defined.

(** X6: the four windows that [get_supertiles_images] reads tile the
    512 x 512 raster: a pixel lies in some window exactly when its column
    and row are in [0, 512), and then it lies in one window only. *)
Theorem quadrant_windows_partition (col row : Z) :
  ((0 <= col < 512 /\ 0 <= row < 512) <->
   exists i j, In (i, j) quadrant_indices /\
               in_window (quadrant_window i j) col row) /\
  (forall i j i' j',
     In (i, j) quadrant_indices -> In (i', j') quadrant_indices ->
     in_window (quadrant_window i j) col row ->
     in_window (quadrant_window i' j') col row ->
     (i, j) = (i', j')).
Proof.
  unfold quadrant_indices, in_window, quadrant_window; cbn.
  split; [split|].
  - intros [Hc Hr].
    destruct (Z_lt_le_dec col 256), (Z_lt_le_dec row 256).
    + exists 0, 0. split; [tauto|lia].
    + exists 0, 1. split; [tauto|lia].
    + exists 1, 0. split; [tauto|lia].
    + exists 1, 1. split; [tauto|lia].
  - intros (i & j & Hin & Hw).
    repeat (destruct Hin as [[= <- <-]|Hin]; [lia|]). contradiction.
  - intros i j i' j' Hin Hin' Hw Hw'.
    repeat (destruct Hin as [[= <- <-]|Hin];
            [repeat (destruct Hin' as [[= <- <-]|Hin'];
                     [reflexivity || lia|]); contradiction|]).
    contradiction.
Qed.

Lemma get_supertiles_images_run (w : World) (self : DownloadAndPredict)
  (tile : Tile) (tiles : list Tile) (log : list Request) (url : string)
  (ds : Dataset) (i0 i1 i2 i3 : bytes) :
  str_format w (imagery self) tile = Ok url ->
  memfile_open w (resp_body (imagery_server w log url)) = Ok ds ->
  dataset_read ds (quadrant_window 0 0) = Ok i0 ->
  dataset_read ds (quadrant_window 0 1) = Ok i1 ->
  dataset_read ds (quadrant_window 1 0) = Ok i2 ->
  dataset_read ds (quadrant_window 1 1) = Ok i3 ->
  get_supertiles_images [VObject self; VTiles (tile :: tiles)] w log =
  match get_supertiles_images [VObject self; VTiles tiles] w (log ++ [HttpGet url]) with
  | (Ok rest, log') =>
      (Ok ([ (child_at tile 0 0, i0); (child_at tile 0 1, i1);
             (child_at tile 0 1, i2); (child_at tile 1 0, i3) ] ++ rest), log')
  | (Raise e, log') => (Raise e, log')
  end.
Proof.
  intros Hurl Hopen H0 H1 H2 H3.
  unfold get_supertiles_images, get_supertiles_images_body, iter_tiles,
    attr_imagery, get_imagery.
  unfold mbind, mret, M_bind, M_ret, lift, raise, call.
  cbn [for_yield]. unfold mbind, mret, M_bind, M_ret.
  rewrite Hurl, Hopen, sort_children.
  unfold quadrant_indices. cbn [comprehension].
  unfold mbind, mret, result_bind, result_ret. cbn [Z.add Z.to_nat].
  rewrite H0, H1, H2, H3. cbn [py_index lookup list_lookup].
  destruct (for_yield _ tiles w (log ++ [HttpGet url])) as [[rest|e] log'];
    reflexivity.
Qed.

(** X7: when every URL can be formatted and the body of every response
    received opens as a raster whose four windows can be read,
    [get_supertiles_images] issues one GET per tile and returns four pairs
    per tile, in the order of the tiles; the tiles of the four pairs of a
    tile are its children at (column, row) (0,0), (0,1), (0,1), (1,0). *)
Theorem get_supertiles_images_batch (w : World) (self : DownloadAndPredict)
  (tiles : list Tile) (urls : list string) (log : list Request) :
  Forall2 (fun t u => str_format w (imagery self) t = Ok u) tiles urls ->
  (forall (i : nat) (url : string),
     urls !! i = Some url ->
     exists ds,
       memfile_open w
         (resp_body (imagery_server w (log ++ map HttpGet (take i urls)) url))
       = Ok ds /\
       forall ij, In ij quadrant_indices ->
         is_ok (dataset_read ds (quadrant_window (fst ij) (snd ij))) = true) ->
  exists pairs,
    get_supertiles_images [VObject self; VTiles tiles] w log
    = (Ok pairs, log ++ map HttpGet urls) /\
    map fst pairs = flat_map supertile_tiles tiles /\
    length pairs = (4 * length tiles)%nat.
Proof.
  intros H. revert log.
  induction H as [|tile url tiles urls Hurl _ IH]; intros log Hopen.
  - exists []. cbn. rewrite app_nil_r. repeat split.
  - destruct (IH (log ++ [HttpGet url])) as (rest & Hrun & Hfst & Hlen).
    { intros i u Hi. specialize (Hopen (S i) u Hi).
      cbn [take map] in Hopen. rewrite <- app_assoc. exact Hopen. }
    destruct (Hopen 0%nat url eq_refl) as (ds & Hds & Hread).
    cbn [take map] in Hds. rewrite app_nil_r in Hds.
    assert (Hr : forall i j, In (i, j) quadrant_indices ->
                 exists img, dataset_read ds (quadrant_window i j) = Ok img).
    { intros i j Hin. specialize (Hread (i, j) Hin). cbn [fst snd] in Hread.
      destruct (dataset_read ds (quadrant_window i j)) as [img|];
        [eauto|discriminate]. }
    destruct (Hr 0 0) as [i0 H0]; [cbn; tauto|].
    destruct (Hr 0 1) as [i1 H1]; [cbn; tauto|].
    destruct (Hr 1 0) as [i2 H2]; [cbn; tauto|].
    destruct (Hr 1 1) as [i3 H3]; [cbn; tauto|].
    eexists.
    rewrite (get_supertiles_images_run w self tile tiles log url ds
               i0 i1 i2 i3 Hurl Hds H0 H1 H2 H3), Hrun.
    cbn [map]. rewrite <- app_assoc. split; [reflexivity|].
    rewrite map_app, length_app, Hfst, Hlen. cbn. split; [reflexivity|lia].
Qed.

(** X7 at two tiles, in a world where only the body that the server sends
    opens as a raster. *)
Lemma get_supertiles_images_batch_witness :
  let w := {| str_format := fun template _ => Ok template;
              b64encode := fun _ => "";
              memfile_open := fun content =>
                match content with
                | [x49; x49; x2a; x00] => Ok no_dataset
                | _ => Raise RasterioIOError
                end;
              imagery_server := fun _ _ => respond 200 [x49; x49; x2a; x00];
              metadata_server := fun _ _ => respond 200 (Ok JNull);
              classifier := fun _ _ _ => respond 200 [];
              detector := fun _ _ _ => respond 200 [] |} in
  let tiles := [mkTile 4 5 3; mkTile 0 0 0] in
  let urls := [imagery example_object; imagery example_object] in
  exists pairs,
    get_supertiles_images [VObject example_object; VTiles tiles] w []
    = (Ok pairs, [] ++ map HttpGet urls) /\
    map fst pairs = flat_map supertile_tiles tiles /\
    length pairs = (4 * length tiles)%nat.
Proof.
  intros w tiles urls.
  apply (get_supertiles_images_batch w example_object tiles urls []).
  - repeat constructor.
  - intros i url _. exists no_dataset. split; reflexivity.
Defined.

(** ** PayloadBuilder, continued *)

Lemma encode_all_run (k : InstanceKey) (images : list bytes) (w : World)
  (log : list Request) :
  encode_all k images w log
  = (Ok (map (fun img => {| inst_key := k; inst_b64 := b64encode w img |}) images),
     log).
Proof.
  induction images as [|img images IH]; cbn [encode_all map].
  - reflexivity.
  - unfold b64encode_image. unfold mbind, mret, M_bind, M_ret, call.
    rewrite IH. reflexivity.
Qed.

(** X8: what the two payload builders do with the fetched pairs. With no
    pair the unpacking raises [ValueError]. Otherwise the tiles come back in
    the order of the pairs together with one instance per pair, in the same
    order: the i-th instance is the base64 text of the i-th image under the
    key [image_bytes] for a classification model and [inputs] for a
    detection model. No request is issued. *)
Theorem build_payload_aligned (tiles_and_images : list (Tile * bytes))
  (model_type : ModelType) (w : World) (log : list Request) :
  build_payload tiles_and_images model_type w log =
  match tiles_and_images with
  | [] => (Raise ValueError, log)
  | _ :: _ =>
      (Ok (map fst tiles_and_images,
           {| instances :=
                map (fun p => {| inst_key := key_of model_type;
                                 inst_b64 := b64encode w (snd p) |})
                    tiles_and_images |}),
       log)
  end.
Proof.
  destruct tiles_and_images as [|p ps]; [reflexivity|].
  unfold build_payload, unzip_pairs.
  unfold mbind, mret, M_bind, M_ret, raise, lift.
  destruct model_type; rewrite encode_all_run, map_map; reflexivity.
Qed.

(** ** PredictionPostProcessor, classification, continued *)

Lemma PyDict_get_app {V} (l1 l2 : PyDict.t V) (k : string) :
  PyDict.get (l1 ++ l2) k
  = match PyDict.get l1 k with
    | Some v => Some v
    | None => PyDict.get l2 k
    end.
Proof.
  induction l1 as [|[k1 v1] l1 IH]; cbn; [reflexivity|].
  destruct (String.eqb k k1); [reflexivity|apply IH].
Qed.

Lemma PyDict_get_absent {V} (l : PyDict.t V) (k : string) :
  ~ In k (map fst l) -> PyDict.get l k = None.
Proof.
  induction l as [|[k1 v1] l IH]; cbn; [reflexivity|].
  intros H. destruct (String.eqb_spec k k1) as [->|Hk]; [tauto|].
  apply IH. tauto.
Qed.

Lemma PyDict_get_rev {V} (l : PyDict.t V) (k : string) :
  List.NoDup (map fst l) -> PyDict.get (rev l) k = PyDict.get l k.
Proof.
  induction l as [|[k0 v0] l IH]; cbn [rev map fst]; [reflexivity|].
  intros Hnd. apply List.NoDup_cons_iff in Hnd as [Hnotin Hnd].
  rewrite PyDict_get_app, (IH Hnd). cbn.
  destruct (String.eqb_spec k k0) as [->|Hk].
  - rewrite (PyDict_get_absent l k0 Hnotin). reflexivity.
  - destruct (PyDict.get l k); reflexivity.
Qed.

Lemma in_fst_zip {A B} (ks : list A) (vs : list B) (k : A) :
  In k (map fst (zip ks vs)) -> In k ks.
Proof.
  revert vs. induction ks as [|k0 ks IH]; intros [|v0 vs]; cbn; try tauto.
  intros [->|H]; [left; reflexivity|right; exact (IH vs H)].
Qed.

Lemma NoDup_fst_zip {A B} (ks : list A) (vs : list B) :
  List.NoDup ks -> List.NoDup (map fst (zip ks vs)).
Proof.
  intros Hnd. revert vs.
  induction Hnd as [|k0 ks Hnotin Hnd IH]; intros [|v0 vs]; cbn;
    try constructor.
  - intros H. apply Hnotin. exact (in_fst_zip _ _ _ H).
  - apply IH.
Qed.

Lemma PyDict_get_zip {V} (ks : list string) (vs : list V) (j : nat) (k : string) :
  List.NoDup ks -> ks !! j = Some k -> PyDict.get (zip ks vs) k = vs !! j.
Proof.
  intros Hnd. revert vs j.
  induction Hnd as [|k0 ks Hnotin Hnd IH]; intros vs j Hj; [discriminate|].
  destruct vs as [|v0 vs].
  - cbn. symmetry. apply lookup_nil.
  - destruct j as [|j]; cbn in Hj |- *.
    + injection Hj as ->. rewrite String.eqb_refl. reflexivity.
    + destruct (String.eqb_spec k k0) as [->|Hk].
      * exfalso. apply Hnotin. apply list_elem_of_In.
        eapply list_elem_of_lookup_2. exact Hj.
      * apply IH. exact Hj.
Qed.

Lemma fill_pred_dict_fits (inferences : list string) (vec : list Q) :
  forall (j : nat) (d d' : PyDict.t Q),
    fill_pred_dict inferences j vec d = Ok d' ->
    vec = [] \/ (j + length vec <= length inferences)%nat.
Proof.
  induction vec as [|score vec IH]; intros j d d'; cbn [fill_pred_dict].
  - left. reflexivity.
  - destruct (py_index inferences j) as [label|e] eqn:E; run_M; [|discriminate].
    intros H. right. cbn [length].
    assert (j < length inferences)%nat.
    { apply lookup_lt_is_Some. unfold py_index in E.
      destruct (inferences !! j); [eauto|discriminate]. }
    destruct (IH _ _ _ H) as [->|Hle]; cbn; lia.
Qed.

Lemma cl_loop_raises (preds : list (list Q)) (prediction_id : string)
  (inferences : list string) (tiles : list Tile) :
  forall (i : nat) (pred_list : list PredictionRecord) (e : Exn),
    cl_loop preds prediction_id inferences i tiles pred_list = Raise e ->
    e = IndexError.
Proof.
  induction tiles as [|tile tiles IH]; intros i pred_list e; cbn [cl_loop].
  - discriminate.
  - destruct (py_index preds i) as [vec|e'] eqn:Hi; run_M.
    + destruct (fill_pred_dict inferences 0 vec PyDict.empty) as [d|e'] eqn:Hd;
        run_M.
      * apply IH.
      * intros [= <-]. exact (fill_pred_dict_raises _ _ _ _ _ Hd).
    + intros [= <-]. exact (py_index_raises _ _ _ Hi).
Qed.

Lemma cl_loop_fits (preds : list (list Q)) (prediction_id : string)
  (inferences : list string) (tiles : list Tile) :
  forall (i : nat) (pred_list records : list PredictionRecord),
    cl_loop preds prediction_id inferences i tiles pred_list = Ok records ->
    (tiles = [] \/ (i + length tiles <= length preds)%nat) /\
    Forall (fun vec => (length vec <= length inferences)%nat)
           (take (length tiles) (drop i preds)).
Proof.
  induction tiles as [|tile tiles IH]; intros i pred_list records;
    cbn [cl_loop].
  - intros _. split; [left; reflexivity|constructor].
  - destruct (py_index preds i) as [vec|e] eqn:Hi; run_M; [|discriminate].
    destruct (fill_pred_dict inferences 0 vec PyDict.empty) as [d|e] eqn:Hd;
      run_M; [|discriminate].
    intros H. destruct (IH _ _ _ H) as [Hlen Hfit].
    assert (Hv : preds !! i = Some vec).
    { unfold py_index in Hi. destruct (preds !! i); congruence. }
    pose proof (lookup_lt_Some _ _ _ Hv) as Hlt.
    split.
    + right. cbn [length]. destruct Hlen as [->|Hlen]; cbn; lia.
    + rewrite (drop_S _ _ _ Hv). cbn [length take]. constructor; [|exact Hfit].
      destruct (fill_pred_dict_fits _ _ _ _ _ Hd) as [->|Hle]; cbn in *; lia.
Qed.

(** X9: for a response whose body holds, under [predictions], a list of
    vectors of numbers. [cl_post_prediction] issues exactly one request, a
    POST of the whole payload, whatever the outcome. It returns a document
    exactly when the status is not an error status, there are at least as
    many prediction vectors as tiles, and none of the vectors of the tiles
    is longer than the list of labels. It raises [HTTPError] exactly for an
    error status, and [IndexError] when it fails for such a response with
    another status. *)
Theorem cl_post_prediction_outcome (w : World) (self : DownloadAndPredict)
  (payload : Payload) (tiles : list Tile) (prediction_id : string)
  (inferences : list string) (log : list Request) :
  let url := (prediction_endpoint self ++ ":predict")%string in
  let r := classifier w log url payload in
  let out := cl_post_prediction self payload tiles prediction_id inferences w log in
  snd out = log ++ [HttpPost url payload] /\
  (is_ok (fst out) = true <->
   ok r = true /\ (length tiles <= length (resp_body r))%nat /\
   Forall (fun vec => (length vec <= length inferences)%nat)
          (take (length tiles) (resp_body r))) /\
  (fst out = Raise HTTPError <-> ok r = false) /\
  (forall e, fst out = Raise e -> e = HTTPError \/ e = IndexError).
Proof.
  intros url r out. subst out. rewrite cl_post_prediction_run.
  fold url; fold r. cbn [fst snd]. split; [reflexivity|].
  destruct (ok r) eqn:Hok.
  2:{ cbn. repeat split; try discriminate; try tauto.
      intros e [= <-]. left; reflexivity. }
  destruct (cl_loop (resp_body r) prediction_id inferences 0 tiles [])
    as [records|e] eqn:Hloop; run_M.
  - destruct (cl_loop_fits _ _ _ _ _ _ _ Hloop) as [Hlen Hfit].
    rewrite drop_0 in Hfit.
    repeat split; try discriminate; try assumption.
    destruct Hlen as [->|Hlen]; cbn in *; lia.
  - pose proof (cl_loop_raises _ _ _ _ _ _ _ Hloop) as ->.
    repeat split; try discriminate.
    + intros (_ & Hlen & Hfit).
      rewrite (cl_loop_ok (resp_body r) prediction_id inferences tiles 0 [])
        in Hloop; [discriminate|cbn; lia|rewrite drop_0; exact Hfit].
    + intros e [= <-]. right; reflexivity.
Qed.

(** X10: with pairwise distinct labels, every record that
    [cl_post_prediction] returns maps the j-th label to the j-th score of
    the vector of its tile, and holds no entry for a label beyond the end of
    that vector. *)
Theorem cl_post_prediction_label_lookup (w : World) (self : DownloadAndPredict)
  (payload : Payload) (tiles : list Tile) (prediction_id : string)
  (inferences : list string) (log : list Request) (doc : ResultDoc) :
  let url := (prediction_endpoint self ++ ":predict")%string in
  let r := classifier w log url payload in
  List.NoDup inferences ->
  fst (cl_post_prediction self payload tiles prediction_id inferences w log)
  = Ok doc ->
  length (doc_predictions doc) = length tiles /\
  forall (i j : nat) (rec : PredictionRecord) (label : string),
    doc_predictions doc !! i = Some rec ->
    inferences !! j = Some label ->
    exists vec,
      resp_body r !! i = Some vec /\
      PyDict.get (rec_predictions rec) label = vec !! j.
Proof.
  intros url r Hnd. rewrite cl_post_prediction_run. fold url; fold r.
  cbn [fst]. destruct (ok r); [|discriminate].
  destruct (cl_loop (resp_body r) prediction_id inferences 0 tiles [])
    as [records|e] eqn:Hloop; run_M; [|discriminate].
  intros [= <-]. cbn [doc_predictions].
  destruct (cl_loop_fits _ _ _ _ _ _ _ Hloop) as [Hlen Hfit].
  rewrite (cl_loop_ok (resp_body r) prediction_id inferences tiles 0 [])
    in Hloop by (assumption || (destruct Hlen as [->|Hlen]; cbn in *; lia)).
  injection Hloop as <-. rewrite drop_0. cbn [app].
  split.
  - rewrite length_zip_with. destruct Hlen as [->|Hlen]; cbn in *; lia.
  - intros i j rec label Hrec Hlabel.
    apply lookup_zip_with_Some in Hrec as (tile & vec & -> & _ & Hvec).
    exists vec. split; [exact Hvec|].
    cbn [rec_predictions cl_record].
    rewrite PyDict_get_of_items, PyDict_get_rev by (apply NoDup_fst_zip, Hnd).
    apply PyDict_get_zip; assumption.
Qed.

(** X10 at a batch of two tiles and two labels. *)
Lemma cl_post_prediction_label_lookup_witness :
  let preds := [[0.9; 0.1]; [0.2; 0.8]]%Q in
  let w := constant_world (respond 200 []) (respond 200 (Ok JNull))
             (respond 200 preds) (respond 200 []) in
  let tiles := [mkTile 4 5 3; mkTile 0 0 1] in
  let inferences := ["building"; "not_building"] in
  let payload := {| instances := [] |} in
  let url := (prediction_endpoint example_object ++ ":predict")%string in
  let doc := {| predictionId := "7";
                doc_predictions := zip_with (cl_record inferences "7") tiles preds |} in
  length (doc_predictions doc) = length tiles /\
  forall (i j : nat) (rec : PredictionRecord) (label : string),
    doc_predictions doc !! i = Some rec ->
    inferences !! j = Some label ->
    exists vec,
      resp_body (classifier w [] url payload) !! i = Some vec /\
      PyDict.get (rec_predictions rec) label = vec !! j.
Proof.
  intros preds w tiles inferences payload url doc.
  apply (cl_post_prediction_label_lookup w example_object payload tiles "7"
           inferences [] doc).
  - repeat constructor; cbn; intros H;
      repeat (destruct H as [H|H]; [discriminate|]); exact H.
  - reflexivity.
Defined.

(** ** PredictionPostProcessor, detection, continued *)

(** One turn of the loop over the tiles, in full. *)
Lemma od_loop_unfold (w : World) (self : DownloadAndPredict) (payload : Payload)
  (prediction_id : string) (i : nat) (tile : Tile) (tiles : list Tile)
  (pred_list : list PredictionRecord) (log : list Request) :
  od_loop self payload prediction_id i (tile :: tiles) pred_list w log =
  match py_index (instances payload) i with
  | Raise e => (Raise e, log)
  | Ok instance =>
      let r := detector w log (prediction_endpoint self ++ ":predict")%string
                 {| instances := [instance] |} in
      let log1 := log ++ [od_request self instance] in
      if ok r then
        match py_index (resp_body r) 0 with
        | Raise e => (Raise e, log1)
        | Ok preds =>
            match od_tile preds tile prediction_id with
            | Raise e => (Raise e, log1)
            | Ok records =>
                od_loop self payload prediction_id (S i) tiles
                  (pred_list ++ records) w log1
            end
        end
      else (Raise HTTPError, log1)
  end.
Proof.
  cbn [od_loop]. unfold post_detector, raise_for_status, od_request.
  unfold mbind, mret, M_bind, M_ret, lift, raise.
  destruct (py_index (instances payload) i) as [instance|e]; [|reflexivity].
  cbv zeta. destruct (ok _); [|reflexivity].
  destruct (py_index (resp_body _) 0) as [preds|e]; [|reflexivity].
  destruct (od_tile preds tile prediction_id); reflexivity.
Qed.

Lemma od_loop_requests (w : World) (self : DownloadAndPredict) (payload : Payload)
  (prediction_id : string) (tiles : list Tile) :
  forall (i : nat) (pred_list : list PredictionRecord) (log : list Request),
    exists k : nat,
      (k <= length tiles)%nat /\
      (k <= length (drop i (instances payload)))%nat /\
      snd (od_loop self payload prediction_id i tiles pred_list w log)
      = log ++ map (od_request self) (take k (drop i (instances payload))) /\
      (is_ok (fst (od_loop self payload prediction_id i tiles pred_list w log))
       = true -> k = length tiles).
Proof.
  induction tiles as [|tile tiles IH]; intros i pred_list log.
  - exists 0%nat. cbn. rewrite app_nil_r. repeat split; lia.
  - rewrite od_loop_unfold.
    destruct (py_index (instances payload) i) as [instance|e] eqn:Hi.
    2:{ exists 0%nat. cbn. rewrite app_nil_r.
        repeat split; try lia; discriminate. }
    assert (Hinst : instances payload !! i = Some instance).
    { unfold py_index in Hi. destruct (instances payload !! i); congruence. }
    rewrite (drop_S _ _ _ Hinst). cbv zeta.
    assert (Hone : forall res : result (list PredictionRecord),
               is_ok res = false ->
               exists k : nat,
                 (k <= length (tile :: tiles))%nat /\
                 (k <= length (instance :: drop (S i) (instances payload)))%nat /\
                 snd (res, log ++ [od_request self instance])
                 = log ++ map (od_request self)
                            (take k (instance :: drop (S i) (instances payload))) /\
                 (is_ok (fst (res, log ++ [od_request self instance])) = true ->
                  k = length (tile :: tiles))).
    { intros res Hres. exists 1%nat. cbn. rewrite Hres.
      repeat split; try lia; discriminate. }
    destruct (ok _); [|apply Hone; reflexivity].
    destruct (py_index (resp_body _) 0) as [preds|e]; [|apply Hone; reflexivity].
    destruct (od_tile preds tile prediction_id) as [records|e];
      [|apply Hone; reflexivity].
    destruct (IH (S i) (pred_list ++ records) (log ++ [od_request self instance]))
      as (k & Hk1 & Hk2 & Hlog & Hok).
    exists (S k). cbn [length take map]. rewrite Hlog, <- app_assoc.
    repeat split; try lia.
    intros H. rewrite (Hok H). reflexivity.
Qed.

(** X11: [od_post_prediction] sends the instances one at a time: its
    requests are POSTs of the first k instances of the payload, one instance
    per request and in their order, for some k that is at most the number of
    tiles. When it returns a document, k is the number of tiles, so a
    payload with fewer instances than tiles never yields a document. *)
Theorem od_post_prediction_requests (w : World) (self : DownloadAndPredict)
  (payload : Payload) (tiles : list Tile) (prediction_id : string)
  (log : list Request) :
  let out := od_post_prediction self payload tiles prediction_id w log in
  exists k : nat,
    (k <= length tiles)%nat /\
    (k <= length (instances payload))%nat /\
    snd out = log ++ map (od_request self) (take k (instances payload)) /\
    (is_ok (fst out) = true -> k = length tiles).
Proof.
  cbv zeta.
  destruct (od_loop_requests w self payload prediction_id tiles 0 [] log)
    as (k & Hk1 & Hk2 & Hlog & Hok).
  rewrite drop_0 in Hk2, Hlog.
  exists k. unfold od_post_prediction. unfold mbind, mret, M_bind, M_ret.
  destruct (od_loop self payload prediction_id 0 tiles [] w log)
    as [[records|e] log'] eqn:Hloop; cbn [fst snd] in *;
    repeat split; auto.
Qed.

Lemma comprehension_lookup {A B} (f : A -> result B) (l : list A) :
  forall (ys : list B) (j : nat) (y : B),
    comprehension f l = Ok ys -> ys !! j = Some y ->
    exists x, l !! j = Some x /\ f x = Ok y.
Proof.
  induction l as [|x xs IH]; intros ys j y; cbn [comprehension].
  - intros [= <-] H. discriminate.
  - destruct (f x) as [y0|e] eqn:Hx; run_M; [|discriminate].
    destruct (comprehension f xs) as [ys'|e] eqn:Hxs; run_M; [|discriminate].
    intros [= <-] Hj. destruct j as [|j]; cbn in Hj |- *.
    + injection Hj as <-. exists x. split; [reflexivity|exact Hx].
    + exact (IH ys' j y eq_refl Hj).
Qed.

Lemma comprehension_raises {A B} (f : A -> result B) (l : list A) (e : Exn) :
  comprehension f l = Raise e -> exists x, In x l /\ f x = Raise e.
Proof.
  induction l as [|x xs IH]; cbn [comprehension]; [discriminate|].
  destruct (f x) as [y0|e'] eqn:Hx; run_M.
  - destruct (comprehension f xs) as [ys'|e'] eqn:Hxs; run_M; [discriminate|].
    intros [= <-]. destruct (IH eq_refl) as (x' & Hin & Hf).
    exists x'. split; [right; exact Hin|exact Hf].
  - intros [= <-]. exists x. split; [left; reflexivity|exact Hx].
Qed.

Lemma tf_bbox_geo_raises (bbox : list Q) (tile : Tile) (e : Exn) :
  Geo.tf_bbox_geo bbox tile = Raise e -> e = IndexError.
Proof.
  destruct bbox as [|b0 [|b1 [|b2 [|b3 rest]]]]; intros [= <-]; reflexivity.
Qed.

Lemma py_slice_to_lookup {A} (l : list A) (n : Z) (j : nat) (x : A) :
  py_slice_to l n !! j = Some x -> l !! j = Some x.
Proof.
  unfold py_slice_to. destruct (0 <=? n); intros H;
    apply lookup_take_Some in H; tauto.
Qed.

Lemma od_tile_records_spec (preds : Detections) (tile : Tile)
  (prediction_id : string) :
  match od_tile preds tile prediction_id with
  | Ok records =>
      forall (j : nat) (rec : PredictionRecord),
        records !! j = Some rec ->
        rec_quadkey rec = quadkey (tile_x tile) (tile_y tile) (tile_z tile) /\
        rec_prediction_id rec = prediction_id /\
        exists box score polygon,
          detection_boxes preds !! j = Some box /\
          detection_scores preds !! j = Some score /\
          Geo.tf_bbox_geo (map (fun c => (c * 256)%Q) box) tile = Ok polygon /\
          rec_quadkey_geom rec = Some (feature_geometry polygon) /\
          rec_predictions rec = [("default", score)]
  | Raise e => e = IndexError
  end.
Proof.
  unfold od_tile. destruct (Qeq_bool (num_detections preds) 0).
  { intros j rec H. discriminate. }
  set (bboxes := py_slice_to (detection_boxes preds) _).
  unfold od_records.
  destruct (comprehension _ (seq 0 (length (scale_256 bboxes))))
    as [records|e] eqn:Hc.
  - intros j rec Hj.
    destruct (comprehension_lookup _ _ _ _ _ Hc Hj) as (x & Hx & Hf).
    apply lookup_seq in Hx as [-> _]. cbn [Nat.add] in Hf. revert Hf.
    destruct (py_index (scale_256 bboxes) j) as [bbox_256|] eqn:Hb;
      run_M; [|discriminate].
    destruct (Geo.tf_bbox_geo bbox_256 tile) as [polygon|] eqn:Hg;
      run_M; [|discriminate].
    destruct (py_index (detection_scores preds) j) as [score|] eqn:Hs;
      run_M; [|discriminate].
    intros [= <-]. cbn. split; [reflexivity|]. split; [reflexivity|].
    unfold py_index in Hb, Hs.
    destruct (scale_256 bboxes !! j) as [b|] eqn:Hb'; [|discriminate].
    injection Hb as ->.
    destruct (detection_scores preds !! j) as [s|] eqn:Hs'; [|discriminate].
    injection Hs as ->.
    unfold scale_256 in Hb'. rewrite list_lookup_fmap in Hb'.
    destruct (bboxes !! j) as [box|] eqn:Hbox; [|discriminate].
    cbn in Hb'. injection Hb' as <-.
    exists box, score, polygon. repeat split; try assumption.
    exact (py_slice_to_lookup _ _ _ _ Hbox).
  - destruct (comprehension_raises _ _ _ Hc) as (j & _ & Hf). revert Hf.
    destruct (py_index (scale_256 bboxes) j) as [bbox_256|e1] eqn:Hb; run_M.
    2:{ intros [= <-]. exact (py_index_raises _ _ _ Hb). }
    destruct (Geo.tf_bbox_geo bbox_256 tile) as [polygon|e1] eqn:Hg; run_M.
    2:{ intros [= <-]. exact (tf_bbox_geo_raises _ _ _ Hg). }
    destruct (py_index (detection_scores preds) j) as [score|e1] eqn:Hs; run_M.
    + discriminate.
    + intros [= <-]. exact (py_index_raises _ _ _ Hs).
Qed.

(** C9: for a detection box [ymin, xmin, ymax, xmax] of the response, the
    record that [od_post_prediction] emits for it is built from the pixel
    rectangle [xmin * 256, ymin * 256, xmax * 256, ymax * 256]: this is the
    result of reordering first and scaling by 256 afterwards, it is the box
    that [tf_bbox_geo] hands to the affine transform of the tile after the
    code has scaled first and reordered afterwards, and the geometry of the
    record is the transformed polygon as [geojson.Feature] stores it. *)
Theorem od_tile_pixel_rectangle (preds : Detections) (tile : Tile)
  (prediction_id : string) (records : list PredictionRecord) (j : nat)
  (rec : PredictionRecord) (ymin xmin ymax xmax : Q) :
  od_tile preds tile prediction_id = Ok records ->
  records !! j = Some rec ->
  detection_boxes preds !! j = Some [ymin; xmin; ymax; xmax] ->
  exists pred pixel_box polygon,
    spec_reorder_then_scale [ymin; xmin; ymax; xmax] = Ok pred /\
    pred = [xmin * 256; ymin * 256; xmax * 256; ymax * 256]%Q /\
    Geo.box_of pred = Ok pixel_box /\
    pixel_box = Geo.box (xmin * 256) (ymin * 256) (xmax * 256) (ymax * 256) /\
    Geo.affine_transform pixel_box (Geo.tile_affine tile) = Ok polygon /\
    rec_quadkey_geom rec = Some (feature_geometry polygon).
Proof.
  intros Hrun Hrec Hbox.
  pose proof (od_tile_records_spec preds tile prediction_id) as Hspec.
  rewrite Hrun in Hspec.
  destruct (Hspec j rec Hrec)
    as (_ & _ & box & score & polygon & Hb & _ & Htf & Hgeom & _).
  rewrite Hbox in Hb. injection Hb as <-.
  exists [xmin * 256; ymin * 256; xmax * 256; ymax * 256]%Q,
         (Geo.box (xmin * 256) (ymin * 256) (xmax * 256) (ymax * 256)),
         polygon.
  repeat split; try reflexivity; assumption.
Qed.

(** C9 at the box of the detection scenario. *)
Lemma od_tile_pixel_rectangle_witness :
  let preds := {| num_detections := 1%Q;
                  detection_scores := [0.9]%Q;
                  detection_boxes := [[0.25; 0.25; 0.75; 0.75]]%Q |} in
  let tile := mkTile 4 5 3 in
  let records := match od_tile preds tile "7" with
                 | Ok rs => rs
                 | Raise _ => []
                 end in
  let rec := match records with
             | r :: _ => r
             | [] => cl_record [] "" tile []
             end in
  exists pred pixel_box polygon,
    spec_reorder_then_scale [0.25; 0.25; 0.75; 0.75]%Q = Ok pred /\
    pred = [0.25 * 256; 0.25 * 256; 0.75 * 256; 0.75 * 256]%Q /\
    Geo.box_of pred = Ok pixel_box /\
    pixel_box = Geo.box (0.25 * 256) (0.25 * 256) (0.75 * 256) (0.75 * 256) /\
    Geo.affine_transform pixel_box (Geo.tile_affine tile) = Ok polygon /\
    rec_quadkey_geom rec = Some (feature_geometry polygon).
Proof.
  intros preds tile records rec.
  apply (od_tile_pixel_rectangle preds tile "7" records 0%nat rec
           0.25 0.25 0.75 0.75); reflexivity.
Defined.

(** X12: the records that one tile contributes, for a prediction with a
    number [num_detections], a list of scores and a list of boxes of
    numbers. When [num_detections] is not zero and every box kept by the
    slice has four coordinates and a score, there is exactly one record per
    kept box and no error. The j-th record carries the quadkey of the tile
    and the prediction id; its geometry is what [geojson.Feature] stores for
    [tf_bbox_geo] of the j-th box of the response scaled by 256, that is the
    polygon with its coordinates rounded to 6 decimals; and its predictions
    hold the j-th score under the single label [default]. *)
Theorem od_tile_shape (preds : Detections) (tile : Tile) (prediction_id : string) :
  let n := py_int (num_detections preds) in
  let kept := py_slice_to (detection_boxes preds) n in
  Qeq_bool (num_detections preds) 0 = false ->
  Forall (fun bbox => (4 <= length bbox)%nat) kept ->
  (length kept <= length (detection_scores preds))%nat ->
  exists records,
    od_tile preds tile prediction_id = Ok records /\
    length records = length kept /\
    forall (j : nat) (rec : PredictionRecord),
      records !! j = Some rec ->
      rec_quadkey rec = quadkey (tile_x tile) (tile_y tile) (tile_z tile) /\
      rec_prediction_id rec = prediction_id /\
      exists box score polygon,
        detection_boxes preds !! j = Some box /\
        detection_scores preds !! j = Some score /\
        Geo.tf_bbox_geo (map (fun c => (c * 256)%Q) box) tile = Ok polygon /\
        rec_quadkey_geom rec = Some (feature_geometry polygon) /\
        rec_predictions rec = [("default", score)].
Proof.
  intros n kept Hnz Hbox Hscores.
  destruct (od_records_total preds (scale_256 kept) tile prediction_id)
    as [records Hrec].
  - unfold scale_256. rewrite Forall_map.
    eapply Forall_impl; [exact Hbox|].
    intros bbox Hb. cbn. rewrite length_map. exact Hb.
  - rewrite length_scale_256. exact Hscores.
  - assert (Hrun : od_tile preds tile prediction_id = Ok records).
    { unfold od_tile. rewrite Hnz. exact Hrec. }
    exists records. split; [exact Hrun|]. split.
    + rewrite (od_records_length _ _ _ _ _ Hrec). apply length_scale_256.
    + pose proof (od_tile_records_spec preds tile prediction_id) as Hspec.
      rewrite Hrun in Hspec. exact Hspec.
Qed.

(** X12 at the prediction of the detection scenario. *)
Lemma od_tile_shape_witness :
  let preds := {| num_detections := 1%Q;
                  detection_scores := [0.9]%Q;
                  detection_boxes := [[0.25; 0.25; 0.75; 0.75]]%Q |} in
  let tile := mkTile 4 5 3 in
  exists records,
    od_tile preds tile "7" = Ok records /\
    length records = length (py_slice_to (detection_boxes preds)
                                         (py_int (num_detections preds))) /\
    forall (j : nat) (rec : PredictionRecord),
      records !! j = Some rec ->
      rec_quadkey rec = quadkey (tile_x tile) (tile_y tile) (tile_z tile) /\
      rec_prediction_id rec = "7" /\
      exists box score polygon,
        detection_boxes preds !! j = Some box /\
        detection_scores preds !! j = Some score /\
        Geo.tf_bbox_geo (map (fun c => (c * 256)%Q) box) tile = Ok polygon /\
        rec_quadkey_geom rec = Some (feature_geometry polygon) /\
        rec_predictions rec = [("default", score)].
Proof.
  intros preds tile.
  apply (od_tile_shape preds tile "7").
  - reflexivity.
  - subst preds. repeat constructor; cbn; lia.
  - subst preds. vm_compute. lia.
Defined.

Lemma od_tile_records_all (preds : Detections) (tile : Tile)
  (prediction_id : string) (records : list PredictionRecord) :
  od_tile preds tile prediction_id = Ok records ->
  Forall (fun rec =>
            rec_prediction_id rec = prediction_id /\
            rec_quadkey rec = quadkey (tile_x tile) (tile_y tile) (tile_z tile) /\
            is_Some (rec_quadkey_geom rec) /\
            PyDict.keys (rec_predictions rec) = ["default"])
         records.
Proof.
  intros H. pose proof (od_tile_records_spec preds tile prediction_id) as Hs.
  rewrite H in Hs. apply Forall_lookup_2. intros j rec Hj.
  destruct (Hs j rec Hj) as (Hq & Hp & box & score & polygon & _ & _ & _ & Hg & Hd).
  rewrite Hg, Hd. repeat split; try assumption. eexists; reflexivity.
Qed.

Lemma od_loop_invariant (w : World) (self : DownloadAndPredict) (payload : Payload)
  (prediction_id : string) (P : PredictionRecord -> Prop) (tiles : list Tile) :
  (forall preds tile records,
     In tile tiles -> od_tile preds tile prediction_id = Ok records ->
     Forall P records) ->
  forall (i : nat) (pred_list : list PredictionRecord) (log : list Request),
    Forall P pred_list ->
    match fst (od_loop self payload prediction_id i tiles pred_list w log) with
    | Ok records => Forall P records
    | Raise e => e = HTTPError \/ e = IndexError
    end.
Proof.
  induction tiles as [|tile tiles IH]; intros Htile i pred_list log Hacc.
  - exact Hacc.
  - rewrite od_loop_unfold.
    destruct (py_index (instances payload) i) as [instance|e] eqn:Hi.
    2:{ right. exact (py_index_raises _ _ _ Hi). }
    cbv zeta. destruct (ok _); [|left; reflexivity].
    destruct (py_index (resp_body _) 0) as [preds|e] eqn:Hp.
    2:{ right. exact (py_index_raises _ _ _ Hp). }
    pose proof (od_tile_records_spec preds tile prediction_id) as Hspec.
    destruct (od_tile preds tile prediction_id) as [records|e] eqn:Ht.
    2:{ right. exact Hspec. }
    apply IH.
    + intros preds' tile' records' Hin. apply Htile. right; exact Hin.
    + apply Forall_app. split; [exact Hacc|].
      apply (Htile preds tile records); [left; reflexivity|exact Ht].
Qed.

(** X13: when [od_post_prediction] returns a document, the document has the
    prediction id of the call, and every record of it has that id, the
    quadkey of one of the input tiles, a geometry, and a single prediction
    under the label [default]. *)
Theorem od_post_prediction_outcome (w : World) (self : DownloadAndPredict)
  (payload : Payload) (tiles : list Tile) (prediction_id : string)
  (log : list Request) :
  match fst (od_post_prediction self payload tiles prediction_id w log) with
  | Ok doc =>
      predictionId doc = prediction_id /\
      Forall (fun rec =>
                rec_prediction_id rec = prediction_id /\
                (exists tile, In tile tiles /\
                   rec_quadkey rec
                   = quadkey (tile_x tile) (tile_y tile) (tile_z tile)) /\
                is_Some (rec_quadkey_geom rec) /\
                PyDict.keys (rec_predictions rec) = ["default"])
             (doc_predictions doc)
  | Raise _ => True
  end.
Proof.
  unfold od_post_prediction. unfold mbind, mret, M_bind, M_ret.
  pose proof (od_loop_invariant w self payload prediction_id
    (fun rec =>
       rec_prediction_id rec = prediction_id /\
       (exists tile, In tile tiles /\
          rec_quadkey rec = quadkey (tile_x tile) (tile_y tile) (tile_z tile)) /\
       is_Some (rec_quadkey_geom rec) /\
       PyDict.keys (rec_predictions rec) = ["default"])
    tiles) as Hinv.
  assert (Htile : forall preds tile records,
             In tile tiles -> od_tile preds tile prediction_id = Ok records ->
             Forall (fun rec =>
               rec_prediction_id rec = prediction_id /\
               (exists tile, In tile tiles /\
                  rec_quadkey rec
                  = quadkey (tile_x tile) (tile_y tile) (tile_z tile)) /\
               is_Some (rec_quadkey_geom rec) /\
               PyDict.keys (rec_predictions rec) = ["default"]) records).
  { intros preds tile records Hin Ht.
    eapply Forall_impl; [exact (od_tile_records_all _ _ _ _ Ht)|].
    intros rec (Hp & Hq & Hg & Hd). repeat split; eauto. }
  specialize (Hinv Htile 0%nat [] log (List.Forall_nil _)).
  destruct (od_loop self payload prediction_id 0 tiles [] w log)
    as [[records|e] log']; cbn [fst] in *.
  - split; [reflexivity|exact Hinv].
  - exact I.
Qed.

(** ** GeoTransformer, continued *)

Section GeoTransformerMore.

Local Open Scope R_scope.

Lemma tf_bbox_geo_ring (ymin xmin ymax xmax : Q) (rest : list Q) (tile : Tile) :
  let b := Geo.bounds (tile_x tile) (tile_y tile) (tile_z tile) in
  Geo.tf_bbox_geo (ymin :: xmin :: ymax :: xmax :: rest) tile
  = Ok [ (lon_of_col b xmax, lat_of_row b ymin);
         (lon_of_col b xmax, lat_of_row b ymax);
         (lon_of_col b xmin, lat_of_row b ymax);
         (lon_of_col b xmin, lat_of_row b ymin);
         (lon_of_col b xmax, lat_of_row b ymin) ].
Proof.
  intros b.
  unfold Geo.tf_bbox_geo, Geo.reorder, Geo.tile_affine, Geo.xoff, Geo.yoff.
  cbn [py_index lookup list_lookup mbind result_bind Geo.box_of Geo.box
       Geo.affine_transform map Geo.af_a Geo.af_b Geo.af_c Geo.af_d
       Geo.af_e Geo.af_f].
  fold b. unfold lon_of_col, lat_of_row.
  repeat match goal with
         | |- Ok _ = Ok _ => f_equal
         | |- _ :: _ = _ :: _ => f_equal
         | |- (_, _) = (_, _) => f_equal
         end; field.
Qed.

(** X14: [tf_bbox_geo] reads the first four coordinates of the box as
    [ymin, xmin, ymax, xmax] and ignores any further one; with fewer than
    four it raises [IndexError]. The polygon is the closed ring of the
    corners (xmax, ymin), (xmax, ymax), (xmin, ymax), (xmin, ymin), each
    column x mapped to the longitude [west + x * (east - west) / 256] and
    each row y to the latitude [north - y * (north - south) / 256]. *)
Theorem tf_bbox_geo_corners (bbox : list Q) (tile : Tile) :
  let b := Geo.bounds (tile_x tile) (tile_y tile) (tile_z tile) in
  Geo.tf_bbox_geo bbox tile =
  match bbox with
  | ymin :: xmin :: ymax :: xmax :: _ =>
      Ok [ (lon_of_col b xmax, lat_of_row b ymin);
           (lon_of_col b xmax, lat_of_row b ymax);
           (lon_of_col b xmin, lat_of_row b ymax);
           (lon_of_col b xmin, lat_of_row b ymin);
           (lon_of_col b xmax, lat_of_row b ymin) ]
  | _ => Raise IndexError
  end.
Proof.
  intros b.
  destruct bbox as [|ymin [|xmin [|ymax [|xmax rest]]]]; try reflexivity.
  apply tf_bbox_geo_ring.
Qed.

Lemma lon_of_col_le (b : Geo.LngLatBbox) (c1 c2 : Q) :
  Geo.west b <= Geo.east b -> (c1 <= c2)%Q ->
  lon_of_col b c1 <= lon_of_col b c2.
Proof.
  intros Hb Hc. apply Qle_Rle in Hc. unfold lon_of_col. nra.
Qed.

Lemma lat_of_row_le (b : Geo.LngLatBbox) (r1 r2 : Q) :
  Geo.south b <= Geo.north b -> (r1 <= r2)%Q ->
  lat_of_row b r2 <= lat_of_row b r1.
Proof.
  intros Hb Hr. apply Qle_Rle in Hr. unfold lat_of_row. nra.
Qed.

Lemma ring_bounds_rectangle (x0 x1 y0 y1 : R) :
  x0 <= x1 -> y0 <= y1 ->
  Geo.ring_bounds [(x1, y1); (x1, y0); (x0, y0); (x0, y1); (x1, y1)]
  = Some (x0, y0, x1, y1).
Proof.
  intros Hx Hy. unfold Geo.ring_bounds. cbn [foldr fst snd].
  unfold Rmin, Rmax.
  repeat match goal with
         | |- context [Rle_dec ?a ?b] =>
             lazymatch a with
             | context [Rle_dec] => fail
             | _ => lazymatch b with
                    | context [Rle_dec] => fail
                    | _ => destruct (Rle_dec a b); try lra
                    end
             end
         end;
  repeat f_equal; lra.
Qed.

(** X15: for a box with [xmin <= xmax] and [ymin <= ymax], the bounds of the
    polygon are, as (west, south, east, north), the longitude of xmin, the
    latitude of ymax, the longitude of xmax and the latitude of ymin: the
    row axis is flipped, the larger row gives the southern edge. *)
Theorem tf_bbox_geo_bounds (ymin xmin ymax xmax : Q) (tile : Tile) :
  let b := Geo.bounds (tile_x tile) (tile_y tile) (tile_z tile) in
  (xmin <= xmax)%Q -> (ymin <= ymax)%Q ->
  exists polygon,
    Geo.tf_bbox_geo [ymin; xmin; ymax; xmax] tile = Ok polygon /\
    Geo.ring_bounds polygon
    = Some (lon_of_col b xmin, lat_of_row b ymax,
            lon_of_col b xmax, lat_of_row b ymin).
Proof.
  intros b Hx Hy. eexists. split; [apply tf_bbox_geo_ring|]. fold b.
  apply ring_bounds_rectangle.
  - apply lon_of_col_le; [|exact Hx].
    apply Rlt_le, bounds_west_lt_east.
  - apply lat_of_row_le; [|exact Hy].
    apply Rlt_le, bounds_south_lt_north.
Qed.

(** X15 at the box of the detection scenario, in pixels. *)
Lemma tf_bbox_geo_bounds_witness :
  let tile := mkTile 4 5 3 in
  let b := Geo.bounds (tile_x tile) (tile_y tile) (tile_z tile) in
  exists polygon,
    Geo.tf_bbox_geo [64; 64; 192; 192]%Q tile = Ok polygon /\
    Geo.ring_bounds polygon
    = Some (lon_of_col b 64, lat_of_row b 192,
            lon_of_col b 192, lat_of_row b 64).
Proof.
  intros tile b.
  apply (tf_bbox_geo_bounds 64 64 192 192 tile); unfold Qle; cbn; lia.
Defined.

Lemma Q2R_scaled (c : Q) : Q2R (c * 256) = Q2R c * 256.
Proof. rewrite Q2R_mult, Q2R_256. reflexivity. Qed.

(** X16: a detection box with normalized coordinates in [0, 1],
    [xmin <= xmax] and [ymin <= ymax], scaled by 256 as
    [od_post_prediction] does, gives a polygon that lies within the bounds
    of its tile. *)
Theorem tf_bbox_geo_within_tile (ymin xmin ymax xmax : Q) (tile : Tile) :
  let b := Geo.bounds (tile_x tile) (tile_y tile) (tile_z tile) in
  (0 <= xmin)%Q -> (xmin <= xmax)%Q -> (xmax <= 1)%Q ->
  (0 <= ymin)%Q -> (ymin <= ymax)%Q -> (ymax <= 1)%Q ->
  exists polygon w s e n,
    Geo.tf_bbox_geo (map (fun c => (c * 256)%Q) [ymin; xmin; ymax; xmax]) tile
    = Ok polygon /\
    Geo.ring_bounds polygon = Some (w, s, e, n) /\
    Geo.west b <= w /\ w <= e /\ e <= Geo.east b /\
    Geo.south b <= s /\ s <= n /\ n <= Geo.north b.
Proof.
  intros b Hx0 Hx Hx1 Hy0 Hy Hy1.
  pose proof (bounds_west_lt_east (tile_x tile) (tile_y tile) (tile_z tile)) as Hwe.
  pose proof (bounds_south_lt_north (tile_x tile) (tile_y tile) (tile_z tile)) as Hsn.
  fold b in Hwe, Hsn.
  apply Qle_Rle in Hx0, Hx, Hx1, Hy0, Hy, Hy1.
  rewrite Q2R_zero in Hx0, Hy0.
  assert (H1 : Q2R 1 = 1) by (unfold Q2R; cbn; lra).
  rewrite H1 in Hx1, Hy1.
  cbn [map]. eexists. exists (lon_of_col b (xmin * 256)), (lat_of_row b (ymax * 256)),
    (lon_of_col b (xmax * 256)), (lat_of_row b (ymin * 256)).
  split; [apply tf_bbox_geo_ring|]. fold b.
  unfold lon_of_col, lat_of_row. rewrite !Q2R_scaled.
  split.
  - apply ring_bounds_rectangle; nra.
  - repeat split; nra.
Qed.

(** X16 at the box of the detection scenario. *)
Lemma tf_bbox_geo_within_tile_witness :
  let tile := mkTile 4 5 3 in
  let b := Geo.bounds (tile_x tile) (tile_y tile) (tile_z tile) in
  exists polygon w s e n,
    Geo.tf_bbox_geo
      (map (fun c => (c * 256)%Q) [0.25; 0.25; 0.75; 0.75]%Q) tile
    = Ok polygon /\
    Geo.ring_bounds polygon = Some (w, s, e, n) /\
    Geo.west b <= w /\ w <= e /\ e <= Geo.east b /\
    Geo.south b <= s /\ s <= n /\ n <= Geo.north b.
Proof.
  intros tile b.
  apply (tf_bbox_geo_within_tile 0.25 0.25 0.75 0.75 tile);
    unfold Qle; cbn; lia.
Defined.

End GeoTransformerMore.

(** ** Documents of the detection variant *)

Lemma od_log_S (self : DownloadAndPredict) (payload : Payload)
  (log : list Request) (i : nat) (instance : Instance) :
  instances payload !! i = Some instance ->
  od_log self payload log i ++ [od_request self instance]
  = od_log self payload log (S i).
Proof.
  intros H. unfold od_log.
  rewrite (take_S_r _ _ _ H), map_app, <- app_assoc. reflexivity.
Qed.

Lemma py_index_head {A} (l : list A) (a : A) :
  py_index l 0 = Ok a -> exists rest, l = a :: rest.
Proof.
  destruct l as [|b rest]; cbn; [discriminate|].
  intros [= ->]. exists rest. reflexivity.
Qed.

Lemma od_loop_concat (w : World) (self : DownloadAndPredict) (payload : Payload)
  (prediction_id : string) (log : list Request) (tiles : list Tile) :
  forall (i : nat) (pred_list records : list PredictionRecord),
    fst (od_loop self payload prediction_id i tiles pred_list w
           (od_log self payload log i)) = Ok records ->
    exists per_tile : list (list PredictionRecord),
      records = pred_list ++ concat per_tile /\
      length per_tile = length tiles /\
      forall (k : nat) (tile : Tile),
        tiles !! k = Some tile ->
        exists instance preds rest recs,
          instances payload !! (i + k)%nat = Some instance /\
          ok (detector w (od_log self payload log (i + k))
                (prediction_endpoint self ++ ":predict")%string
                {| instances := [instance] |}) = true /\
          resp_body (detector w (od_log self payload log (i + k))
                       (prediction_endpoint self ++ ":predict")%string
                       {| instances := [instance] |}) = preds :: rest /\
          od_tile preds tile prediction_id = Ok recs /\
          per_tile !! k = Some recs.
Proof.
  induction tiles as [|tile tiles IH]; intros i pred_list records.
  - cbn. intros [= <-]. exists []. rewrite app_nil_r.
    repeat split. intros k tile H. discriminate.
  - rewrite od_loop_unfold.
    destruct (py_index (instances payload) i) as [instance|e] eqn:Hi;
      [|discriminate].
    assert (Hinst : instances payload !! i = Some instance).
    { unfold py_index in Hi. destruct (instances payload !! i); congruence. }
    cbv zeta. destruct (ok _) eqn:Hok; [|discriminate].
    destruct (py_index (resp_body _) 0) as [preds|e] eqn:Hp; [|discriminate].
    destruct (py_index_head _ _ Hp) as [rest Hbody].
    destruct (od_tile preds tile prediction_id) as [recs|e] eqn:Ht;
      [|discriminate].
    rewrite (od_log_S _ _ _ _ _ Hinst).
    intros H. destruct (IH _ _ _ H) as (per_tile & -> & Hlen & Hall).
    exists (recs :: per_tile). split; [|split].
    + cbn [concat]. rewrite app_assoc. reflexivity.
    + cbn. rewrite Hlen. reflexivity.
    + intros [|k] tile' Hk.
      * injection Hk as <-. rewrite Nat.add_0_r.
        exists instance, preds, rest, recs. repeat split; assumption.
      * rewrite Nat.add_succ_r. exact (Hall k tile' Hk).
Qed.

(** X17: the document that [od_post_prediction] returns lists the records
    tile by tile, in the order of the tiles: it is the concatenation, over
    the tiles, of the records of each tile. The records of the i-th tile are
    those that the loop body computes from the first prediction of the
    response to the i-th request, the POST of the i-th instance alone that
    follows the requests of the tiles before it; that response had no error
    status. *)
Theorem od_post_prediction_concat (w : World) (self : DownloadAndPredict)
  (payload : Payload) (tiles : list Tile) (prediction_id : string)
  (log : list Request) :
  match fst (od_post_prediction self payload tiles prediction_id w log) with
  | Ok doc =>
      exists per_tile : list (list PredictionRecord),
        doc_predictions doc = concat per_tile /\
        length per_tile = length tiles /\
        forall (i : nat) (tile : Tile),
          tiles !! i = Some tile ->
          exists instance preds rest recs,
            instances payload !! i = Some instance /\
            ok (detector w (od_log self payload log i)
                  (prediction_endpoint self ++ ":predict")%string
                  {| instances := [instance] |}) = true /\
            resp_body (detector w (od_log self payload log i)
                         (prediction_endpoint self ++ ":predict")%string
                         {| instances := [instance] |}) = preds :: rest /\
            od_tile preds tile prediction_id = Ok recs /\
            per_tile !! i = Some recs
  | Raise _ => True
  end.
Proof.
  unfold od_post_prediction. unfold mbind, mret, M_bind, M_ret.
  pose proof (od_loop_concat w self payload prediction_id log tiles 0 []) as H.
  unfold od_log in H at 1. cbn [take map] in H. rewrite app_nil_r in H.
  destruct (od_loop self payload prediction_id 0 tiles [] w log)
    as [[records|e] log']; cbn [fst] in *; [|exact I].
  destruct (H records eq_refl) as (per_tile & -> & Hlen & Hall).
  exists per_tile. repeat split; assumption.
Qed.

(** ** Quadkeys *)

Lemma length_digit_char (d : Z) : String.length (digit_char d) = 1%nat.
Proof.
  unfold digit_char.
  destruct (d =? 0); [reflexivity|].
  destruct (d =? 1); [reflexivity|].
  destruct (d =? 2); reflexivity.
Qed.

Lemma length_string_app (s1 s2 : string) :
  String.length (s1 ++ s2) = (String.length s1 + String.length s2)%nat.
Proof. induction s1 as [|c s1 IH]; cbn; [reflexivity|rewrite IH; reflexivity]. Qed.

(** X18: the quadkey that the records carry has one digit per zoom level of
    the tile (and is empty for a zoom that is not positive). *)
Theorem quadkey_length (xtile ytile zoom : Z) :
  String.length (quadkey xtile ytile zoom) = Z.to_nat zoom.
Proof.
  unfold quadkey. induction (Z.to_nat zoom) as [|n IH]; [reflexivity|].
  cbn [quadkey_from]. cbv zeta.
  rewrite length_string_app, length_digit_char, IH. reflexivity.
Qed.

(** The detection scenario of the specification, run from end to end: one
    tile, one detection, one record. *)
Example od_post_prediction_scenario :
  let preds := {| num_detections := 1%Q;
                  detection_scores := [0.9]%Q;
                  detection_boxes := [[0.25; 0.25; 0.75; 0.75]]%Q |} in
  let w := constant_world (respond 200 []) (respond 200 (Ok JNull))
             (respond 200 []) (respond 200 [preds]) in
  let instance := {| inst_key := key_inputs; inst_b64 := "" |} in
  let out := od_post_prediction example_object {| instances := [instance] |}
               [mkTile 4 5 3] "7" w [] in
  snd out = [od_request example_object instance] /\
  exists polygon,
    Geo.tf_bbox_geo (map (fun c => (c * 256)%Q) [0.25; 0.25; 0.75; 0.75]%Q)
      (mkTile 4 5 3) = Ok polygon /\
    fst out
    = Ok {| predictionId := "7";
            doc_predictions :=
              [ {| rec_quadkey := "302";
                   rec_quadkey_geom := Some (feature_geometry polygon);
                   rec_predictions := [("default", 0.9%Q)];
                   rec_prediction_id := "7" |} ] |}.
Proof.
  cbv zeta. split; [reflexivity|].
  eexists. split; reflexivity.
Qed.
